(** * RTC_DS3232: register-level driver for the DS3232 real-time clock

    A shallow embedding of [src/RTC_DS3232.cpp].  Bytes are integers of [Z]
    with the 8-bit wrap-around written out ([u8]); the chip is a register
    file of 256 bytes reached through the two bus transactions the driver
    uses; every driver method is a computation in a small state monad over
    the device, so that the sequence of bus transactions the C++ code
    issues can be read off the model. *)

From Stdlib Require Import ZArith List Lia Bool QArith.
Import ListNotations.
Open Scope Z_scope.

(** ** Bytes *)

(** Conversion to [uint8_t]: the value modulo 256. *)
Definition u8 (x : Z) : Z := x mod 256.

(** Conversion of an integer to [bool], as C++ does on [return]: non-zero
    is [true]. *)
Definition to_bool (x : Z) : bool := negb (x =? 0).

(** ** Register map (the [#define]s at the head of the file) *)

Definition DS3232_ADDRESS : Z := 0x68.
Definition DS3232_TIME : Z := 0x00.
Definition DS3232_ALARM1 : Z := 0x07.
Definition DS3232_ALARM2 : Z := 0x0B.
Definition DS3232_CONTROL : Z := 0x0E.
Definition DS3232_STATUSREG : Z := 0x0F.
Definition DS3232_TEMPERATUREREG : Z := 0x11.
Definition DS3232_NVRAM : Z := 0x14.

(** ** BCD conversion *)

(** Modelled from the spec: [bin2bcd] is declared in RTClib.h, which is not
    part of this file; the spec gives it as [((n/10)<<4) | (n%10)].  Argument
    and result are [uint8_t]. *)
Definition bin2bcd (val : Z) : Z :=
  let n := u8 val in
  u8 (Z.lor (Z.shiftl (n / 10) 4) (n mod 10)).

(** Modelled from the spec: [bcd2bin] is declared in RTClib.h; the spec gives
    it as [((b>>4)*10) + (b & 0x0F)].  Argument and result are [uint8_t]. *)
Definition bcd2bin (val : Z) : Z :=
  let b := u8 val in
  u8 (Z.shiftr b 4 * 10 + Z.land b 0x0F).

(** ** The calendar value *)

(** Modelled from the spec: the [DateTime] class is declared in RTClib.h.
    The driver builds it from six numbers, in the order of the constructor
    call in [now()], and reads it through one accessor per field.  Its
    seventh accessor, [dayOfTheWeek()], takes no part in the construction:
    it is a function of the value, declared with the driver below. *)
Record DateTime : Type := mkDateTime {
  year : Z;
  month : Z;
  day : Z;
  hour : Z;
  minute : Z;
  second : Z
}.

(** The ranges the spec gives for a wall-clock time value. *)
Definition valid_DateTime (t : DateTime) : Prop :=
  2000 <= year t <= 2099 /\ 1 <= month t <= 12 /\ 1 <= day t <= 31 /\
  0 <= hour t <= 23 /\ 0 <= minute t <= 59 /\ 0 <= second t <= 59.

(** ** The chip behind the bus *)

(** One transaction of [Adafruit_I2CDevice], as the driver issues them. *)
Inductive BusEvent : Type :=
| BusWrite (bytes : list Z)
| BusWriteThenRead (out : list Z) (len : nat).

(** The register file of the chip and the transactions seen so far. *)
Record Device : Type := mkDevice {
  regs : Z -> Z;
  bus_log : list BusEvent
}.

(** The byte held by register [a]. *)
Definition reg (s : Device) (a : Z) : Z := u8 (regs s (u8 a)).

Definition upd (r : Z -> Z) (a v : Z) : Z -> Z :=
  fun x => if x =? a then v else r x.

(** A write transaction: the first byte selects a register, the following
    bytes go to consecutive registers (the register pointer is 8 bits wide). *)
Fixpoint store (r : Z -> Z) (a : Z) (data : list Z) : Z -> Z :=
  match data with
  | [] => r
  | b :: rest => store (upd r (u8 a) (u8 b)) (a + 1) rest
  end.

(** A read of [len] consecutive registers starting at [a]. *)
Fixpoint fetch (r : Z -> Z) (a : Z) (len : nat) : list Z :=
  match len with
  | O => []
  | S n => u8 (r (u8 a)) :: fetch r (a + 1) n
  end.

(** A device whose registers 0, 1, 2, ... hold the bytes of [image] and
    whose other registers hold 0. *)
Definition image_device (image : list Z) : Device :=
  mkDevice (fun a => nth (Z.to_nat a) image 0) [].

(** A register image for examples: 10:15:30 on the first of January 2024
    with the century bit of the month register set, INTCN and the 8.192 kHz
    rate in the control register, the oscillator-stop flag in the status
    register, and 23.25 degrees in the temperature registers. *)
Definition sample_device : Device :=
  image_device [0x30; 0x15; 0x10; 0x02; 0x01; 0x81; 0x24;
                0x00; 0x00; 0x00; 0x00; 0x00; 0x00; 0x00;
                0x1C; 0x88; 0x00; 0x17; 0x40].

(** The same chip one degree below freezing: the temperature registers
    hold 0xFF and 0x00. *)
Definition freezing_device : Device :=
  image_device [0x30; 0x15; 0x10; 0x02; 0x01; 0x81; 0x24;
                0x00; 0x00; 0x00; 0x00; 0x00; 0x00; 0x00;
                0x1C; 0x88; 0x00; 0xFF; 0x00].

(** The last second of 2024. *)
Definition sample_time : DateTime := mkDateTime 2024 12 31 23 59 58.


(** ** Sequencing of bus transactions *)

Definition M (A : Type) : Type := Device -> A * Device.

Definition ret {A : Type} (x : A) : M A := fun s => (x, s).

Definition bind {A B : Type} (c : M A) (k : A -> M B) : M B :=
  fun s => let (x, s') := c s in k x s'.

Notation "x <- c ;; k" := (bind c (fun x => k))
  (at level 61, c at next level, right associativity).
Notation "c ;;; k" := (bind c (fun _ => k))
  (at level 61, right associativity).

(** The value a computation returns and the device it leaves. *)
Definition result {A : Type} (c : M A) (s : Device) : A := fst (c s).
Definition after {A : Type} (c : M A) (s : Device) : Device := snd (c s).

(** [i2c_dev->write(buffer, len)]. *)
Definition i2c_write (buffer : list Z) : M unit :=
  fun s =>
    match buffer with
    | [] => (tt, mkDevice (regs s) (bus_log s ++ [BusWrite buffer]))
    | a :: data =>
        (tt, mkDevice (store (regs s) a data) (bus_log s ++ [BusWrite buffer]))
    end.

(** [i2c_dev->write(buffer, len, true, prefix, prefix_len)]: the prefix goes
    out first, in the same transaction. *)
Definition i2c_write_prefixed (buffer prefix : list Z) : M unit :=
  i2c_write (prefix ++ buffer).

(** [i2c_dev->write_then_read(out, 1, in, len)]: the byte written selects
    the register the read starts from. *)
Definition i2c_write_then_read (out : list Z) (len : nat) : M (list Z) :=
  fun s =>
    match out with
    | [] => ([], mkDevice (regs s) (bus_log s ++ [BusWriteThenRead out len]))
    | a :: data =>
        let r := store (regs s) a data in
        (fetch r (a + Z.of_nat (length data)) len,
         mkDevice r (bus_log s ++ [BusWriteThenRead out len]))
    end.

(** Modelled from the spec: [read_register] is defined in RTClib.cpp; the
    spec gives it as a single-byte write-then-read. *)
Definition read_register (r : Z) : M Z :=
  buffer <- i2c_write_then_read [u8 r] 1 ;;
  ret (nth 0 buffer 0).

(** Modelled from the spec: [write_register] is defined in RTClib.cpp; the
    spec gives it as a single write transaction of the register address and
    the value. *)
Definition write_register (r val : Z) : M unit :=
  i2c_write [u8 r; u8 val].

(** The bus writes among the transactions of a log. *)
Definition is_write (e : BusEvent) : bool :=
  match e with BusWrite _ => true | BusWriteThenRead _ _ => false end.

Definition writes (l : list BusEvent) : list BusEvent := filter is_write l.

(** ** The driver *)

Section Driver.

(** Declared in RTClib.h: the day of the week of a calendar value, the
    translation of that number to the chip's, and the "off" value of the
    [Ds3232SqwPinMode] enumeration. *)
Variable dayOfTheWeek : DateTime -> Z.
Variable dowToDS3232 : Z -> Z.
Variable DS3232_OFF : Z.

Definition lostPower : M bool :=
  statreg <- read_register DS3232_STATUSREG ;;
  ret (to_bool (Z.shiftr statreg 7)).

(** The eight bytes [adjust] sends: the register address and the seven time
    registers. *)
Definition adjust_buffer (dt : DateTime) : list Z :=
  [DS3232_TIME;
   bin2bcd (second dt);
   bin2bcd (minute dt);
   bin2bcd (hour dt);
   bin2bcd (dowToDS3232 (dayOfTheWeek dt));
   bin2bcd (day dt);
   bin2bcd (month dt);
   bin2bcd (year dt - 2000)].

Definition adjust (dt : DateTime) : M unit :=
  i2c_write (adjust_buffer dt) ;;;
  statreg <- read_register DS3232_STATUSREG ;;
  let statreg := u8 (Z.land statreg (Z.lnot 0x80)) in
  write_register DS3232_STATUSREG statreg.

(** The [return] expression of [now()], on the seven bytes read. *)
Definition now_decode (buffer : list Z) : DateTime :=
  mkDateTime (bcd2bin (nth 6 buffer 0) + 2000)
             (bcd2bin (Z.land (nth 5 buffer 0) 0x7F))
             (bcd2bin (nth 4 buffer 0))
             (bcd2bin (nth 2 buffer 0))
             (bcd2bin (nth 1 buffer 0))
             (bcd2bin (Z.land (nth 0 buffer 0) 0x7F)).

Definition now : M DateTime :=
  buffer <- i2c_write_then_read [0] 7 ;;
  ret (now_decode buffer).

Definition readSqwPinMode : M Z :=
  ctrl <- read_register DS3232_CONTROL ;;
  let mode := Z.land ctrl 0x1C in
  ret (if to_bool (Z.land mode 0x04) then DS3232_OFF else mode).

Definition writeSqwPinMode (mode : Z) : M unit :=
  ctrl <- read_register DS3232_CONTROL ;;
  let ctrl := u8 (Z.land ctrl (Z.lnot 0x04)) in
  let ctrl := u8 (Z.land ctrl (Z.lnot 0x18)) in
  write_register DS3232_CONTROL (Z.lor ctrl mode).

(** The two bytes of the temperature register, decoded.  Every value the
    expression takes is a multiple of 0.25 below 256, which [float]
    represents exactly, so the sum is written over the rationals. *)
Definition temperature_decode (buffer : list Z) : Q :=
  inject_Z (nth 0 buffer 0) + inject_Z (Z.shiftr (nth 1 buffer 0) 6) * (1 # 4).

Definition getTemperature : M Q :=
  buffer <- i2c_write_then_read [DS3232_TEMPERATUREREG] 2 ;;
  ret (temperature_decode buffer).

(** The five bytes [setAlarm1] sends. *)
Definition alarm1_buffer (dt : DateTime) (alarm_mode : Z) : list Z :=
  let A1M1 := u8 (Z.shiftl (Z.land alarm_mode 0x01) 7) in
  let A1M2 := u8 (Z.shiftl (Z.land alarm_mode 0x02) 6) in
  let A1M3 := u8 (Z.shiftl (Z.land alarm_mode 0x04) 5) in
  let A1M4 := u8 (Z.shiftl (Z.land alarm_mode 0x08) 4) in
  let DY_DT := u8 (Z.shiftl (Z.land alarm_mode 0x10) 2) in
  let day := u8 (if to_bool DY_DT then dowToDS3232 (dayOfTheWeek dt)
                 else day dt) in
  [DS3232_ALARM1;
   u8 (Z.lor (bin2bcd (second dt)) A1M1);
   u8 (Z.lor (bin2bcd (minute dt)) A1M2);
   u8 (Z.lor (bin2bcd (hour dt)) A1M3);
   u8 (Z.lor (Z.lor (bin2bcd day) A1M4) DY_DT)].

Definition setAlarm1 (dt : DateTime) (alarm_mode : Z) : M bool :=
  ctrl <- read_register DS3232_CONTROL ;;
  if negb (to_bool (Z.land ctrl 0x04)) then ret false
  else
    i2c_write (alarm1_buffer dt alarm_mode) ;;;
    write_register DS3232_CONTROL (Z.lor ctrl 0x01) ;;;
    ret true.

(** The four bytes [setAlarm2] sends. *)
Definition alarm2_buffer (dt : DateTime) (alarm_mode : Z) : list Z :=
  let A2M2 := u8 (Z.shiftl (Z.land alarm_mode 0x01) 7) in
  let A2M3 := u8 (Z.shiftl (Z.land alarm_mode 0x02) 6) in
  let A2M4 := u8 (Z.shiftl (Z.land alarm_mode 0x04) 5) in
  let DY_DT := u8 (Z.shiftl (Z.land alarm_mode 0x08) 3) in
  let day := u8 (if to_bool DY_DT then dowToDS3232 (dayOfTheWeek dt)
                 else day dt) in
  [DS3232_ALARM2;
   u8 (Z.lor (bin2bcd (minute dt)) A2M2);
   u8 (Z.lor (bin2bcd (hour dt)) A2M3);
   u8 (Z.lor (Z.lor (bin2bcd day) A2M4) DY_DT)].

Definition setAlarm2 (dt : DateTime) (alarm_mode : Z) : M bool :=
  ctrl <- read_register DS3232_CONTROL ;;
  if negb (to_bool (Z.land ctrl 0x04)) then ret false
  else
    i2c_write (alarm2_buffer dt alarm_mode) ;;;
    write_register DS3232_CONTROL (Z.lor ctrl 0x02) ;;;
    ret true.

Definition clearOSF : M unit :=
  statreg <- read_register DS3232_STATUSREG ;;
  let statreg := u8 (Z.land statreg (Z.lnot 0x80)) in
  write_register DS3232_STATUSREG statreg.

Definition enableEOSC : M unit :=
  status <- read_register DS3232_CONTROL ;;
  let status := u8 (Z.land status (Z.lnot (Z.shiftl 0x1 0x07))) in
  write_register DS3232_CONTROL status.

Definition disableEOSC : M unit :=
  status <- read_register DS3232_CONTROL ;;
  let status := u8 (Z.lor status (Z.shiftl 0x1 0x07)) in
  write_register DS3232_CONTROL status.

Definition isEnabledEOSC : M bool :=
  ctrl <- read_register DS3232_CONTROL ;;
  ret (to_bool (Z.land (Z.shiftr ctrl 0x07) 0x01)).

(** [readnvram(buf, size, address)]: the bytes left in [buf]. *)
Definition readnvram (size : nat) (address : Z) : M (list Z) :=
  let addrByte := u8 (DS3232_NVRAM + u8 address) in
  i2c_write_then_read [addrByte] size.

(** [writenvram(address, buf, size)]. *)
Definition writenvram (address : Z) (buf : list Z) (size : nat) : M unit :=
  let addrByte := u8 (DS3232_NVRAM + u8 address) in
  i2c_write_prefixed (firstn size buf) [addrByte].

(** [readnvram(address)], the one-byte shortcut. *)
Definition readnvram_byte (address : Z) : M Z :=
  data <- readnvram 1 address ;;
  ret (nth 0 data 0).

(** [writenvram(address, data)], the one-byte shortcut. *)
Definition writenvram_byte (address data : Z) : M unit :=
  writenvram address [u8 data] 1.

(** [disableAlarm(alarm_num)].  The shift count [alarm_num - 1] is an
    [int]; C++ defines the shift for counts from 0 up, so the model says
    nothing of [alarm_num = 0]. *)
Definition disableAlarm (alarm_num : Z) : M unit :=
  ctrl <- read_register DS3232_CONTROL ;;
  let ctrl := u8 (Z.land ctrl (Z.lnot (Z.shiftl 1 (u8 alarm_num - 1)))) in
  write_register DS3232_CONTROL ctrl.

Definition clearAlarm (alarm_num : Z) : M unit :=
  status <- read_register DS3232_STATUSREG ;;
  let status :=
    u8 (Z.land status (Z.lnot (Z.shiftl 0x1 (u8 alarm_num - 1)))) in
  write_register DS3232_STATUSREG status.

Definition alarmFired (alarm_num : Z) : M bool :=
  status <- read_register DS3232_STATUSREG ;;
  ret (to_bool (Z.land (Z.shiftr status (u8 alarm_num - 1)) 0x1)).

Definition enable32K : M unit :=
  status <- read_register DS3232_STATUSREG ;;
  let status := u8 (Z.lor status (Z.shiftl 0x1 0x03)) in
  write_register DS3232_STATUSREG status.

Definition disable32K : M unit :=
  status <- read_register DS3232_STATUSREG ;;
  let status := u8 (Z.land status (Z.lnot (Z.shiftl 0x1 0x03))) in
  write_register DS3232_STATUSREG status.

Definition isEnabled32K : M bool :=
  status <- read_register DS3232_STATUSREG ;;
  ret (to_bool (Z.land (Z.shiftr status 0x03) 0x01)).

Definition enableBB32KHZ : M unit :=
  status <- read_register DS3232_STATUSREG ;;
  let status := u8 (Z.lor status (Z.shiftl 0x1 0x06)) in
  write_register DS3232_STATUSREG status.

Definition disableBB32KHZ : M unit :=
  status <- read_register DS3232_STATUSREG ;;
  let status := u8 (Z.land status (Z.lnot (Z.shiftl 0x1 0x06))) in
  write_register DS3232_STATUSREG status.

Definition isEnabledBB32KHZ : M bool :=
  status <- read_register DS3232_STATUSREG ;;
  ret (to_bool (Z.land (Z.shiftr status 0x06) 0x01)).


(** The decode of [now()] as the spec words it: bit 7 masked off the
    seconds and the minutes bytes, every other byte decoded as it is. *)
Definition now_decode_spec (buffer : list Z) : DateTime :=
  mkDateTime (bcd2bin (nth 6 buffer 0) + 2000)
             (bcd2bin (nth 5 buffer 0))
             (bcd2bin (nth 4 buffer 0))
             (bcd2bin (nth 2 buffer 0))
             (bcd2bin (Z.land (nth 1 buffer 0) 0x7F))
             (bcd2bin (Z.land (nth 0 buffer 0) 0x7F)).

(** A byte read as an [int8_t]. *)
Definition signed8 (b : Z) : Z := if b <? 128 then b else b - 256.

(** The temperature as the spec words it: the first byte read as a signed
    integer, plus a quarter of a degree per unit of the top two bits of the
    second byte. *)
Definition temperature_spec (buffer : list Z) : Q :=
  inject_Z (signed8 (nth 0 buffer 0)) +
  inject_Z (Z.shiftr (nth 1 buffer 0) 6) * (1 # 4).

(** The mask bit of an alarm register (bit 7) and its day-or-date selector
    (bit 6), as the spec lays them out. *)
Definition mask_bit (b : bool) : Z := if b then 0x80 else 0.
Definition dydt_bit (b : bool) : Z := if b then 0x40 else 0.

(** The day field of an alarm: the day of the week when the selector bit of
    the mode is set, the day of the month otherwise. *)
Definition alarm_day (dt : DateTime) (dydt : bool) : Z :=
  if dydt then dowToDS3232 (dayOfTheWeek dt) else day dt.

(** The alarm-1 registers 0x07..0x0A the spec documents for a time and a
    mode: seconds, minutes, hours, day-or-date, each BCD with its mask bit. *)
Definition alarm1_registers (dt : DateTime) (alarm_mode : Z) : list Z :=
  [Z.lor (bin2bcd (second dt)) (mask_bit (Z.testbit alarm_mode 0));
   Z.lor (bin2bcd (minute dt)) (mask_bit (Z.testbit alarm_mode 1));
   Z.lor (bin2bcd (hour dt)) (mask_bit (Z.testbit alarm_mode 2));
   Z.lor (Z.lor (bin2bcd (alarm_day dt (Z.testbit alarm_mode 4)))
                (mask_bit (Z.testbit alarm_mode 3)))
         (dydt_bit (Z.testbit alarm_mode 4))].

(** The alarm-2 registers 0x0B..0x0D the spec documents: minutes, hours,
    day-or-date. *)
Definition alarm2_registers (dt : DateTime) (alarm_mode : Z) : list Z :=
  [Z.lor (bin2bcd (minute dt)) (mask_bit (Z.testbit alarm_mode 0));
   Z.lor (bin2bcd (hour dt)) (mask_bit (Z.testbit alarm_mode 1));
   Z.lor (Z.lor (bin2bcd (alarm_day dt (Z.testbit alarm_mode 3)))
                (mask_bit (Z.testbit alarm_mode 2)))
         (dydt_bit (Z.testbit alarm_mode 3))].

(** What a successful [setAlarm] leaves behind: three transactions (the
    read of the control register, the alarm write at [base], the write of
    the control register with bit [ie] set); the alarm registers holding
    [bytes]; the control register with bit [ie] set and its other bits as
    they were; every other register as it was. *)
Definition alarm_written (base : Z) (bytes : list Z) (ie : Z)
    (s s' : Device) : Prop :=
  bus_log s' =
    bus_log s ++
    [BusWriteThenRead [DS3232_CONTROL] 1;
     BusWrite (base :: bytes);
     BusWrite [DS3232_CONTROL; Z.lor (reg s DS3232_CONTROL) (2 ^ ie)]] /\
  (forall i, (i < length bytes)%nat ->
     reg s' (base + Z.of_nat i) = nth i bytes 0) /\
  (forall i, Z.testbit (reg s' DS3232_CONTROL) i =
             Z.testbit (reg s DS3232_CONTROL) i || (i =? ie)) /\
  (forall a, 0 <= a < 256 ->
     ~ (base <= a < base + Z.of_nat (length bytes)) ->
     a <> DS3232_CONTROL -> reg s' a = reg s a).

(** What a refused [setAlarm] leaves behind: the register file as it was,
    and the read of the control register as the only transaction. *)
Definition alarm_skipped (s s' : Device) : Prop :=
  regs s' = regs s /\
  bus_log s' = bus_log s ++ [BusWriteThenRead [DS3232_CONTROL] 1] /\
  writes (bus_log s') = writes (bus_log s).

(** Checking a property of every number below [k]. *)
Definition all_below (k : nat) (f : Z -> bool) : bool :=
  forallb f (map Z.of_nat (seq 0 k)).

(** ** Bytes and bits *)

Lemma u8_range (x : Z) : 0 <= u8 x < 256.
Proof. unfold u8. apply Z.mod_pos_bound. lia. Qed.

Lemma u8_small (x : Z) : 0 <= x < 256 -> u8 x = x.
Proof. unfold u8. intros H. apply Z.mod_small. exact H. Qed.

Lemma u8_idem (x : Z) : u8 (u8 x) = u8 x.
Proof. apply u8_small, u8_range. Qed.

Lemma u8_testbit (x i : Z) : Z.testbit (u8 x) i = (i <? 8) && Z.testbit x i.
Proof.
  unfold u8. change 256 with (2 ^ 8). apply Z.testbit_mod_pow2. lia.
Qed.

Lemma all_below_sound (k : nat) (f : Z -> bool) :
  all_below k f = true -> forall n, 0 <= n < Z.of_nat k -> f n = true.
Proof.
  unfold all_below. intros H n Hn.
  rewrite forallb_forall in H. apply H.
  apply in_map_iff. exists (Z.to_nat n). split.
  - lia.
  - apply in_seq. lia.
Qed.

(** ** The bus *)

Lemma read_register_eq (r : Z) (s : Device) :
  read_register r s =
  (reg s r, mkDevice (regs s) (bus_log s ++ [BusWriteThenRead [u8 r] 1])).
Proof.
  unfold read_register, bind, i2c_write_then_read, ret, reg. simpl.
  rewrite Z.add_0_r, u8_idem. reflexivity.
Qed.

Lemma write_register_eq (r v : Z) (s : Device) :
  write_register r v s =
  (tt, mkDevice (upd (regs s) (u8 r) (u8 v))
                (bus_log s ++ [BusWrite [u8 r; u8 v]])).
Proof.
  unfold write_register, i2c_write. simpl. rewrite !u8_idem. reflexivity.
Qed.

Lemma reg_upd (r : Z -> Z) (l : list BusEvent) (a v x : Z) :
  reg (mkDevice (upd r a v) l) x =
  if u8 x =? a then u8 v else reg (mkDevice r l) x.
Proof.
  unfold reg, upd. simpl. destruct (u8 x =? a); reflexivity.
Qed.

Lemma fetch_nth (r : Z -> Z) (len : nat) :
  forall a i, (i < len)%nat ->
  nth i (fetch r a len) 0 = u8 (r (u8 (a + Z.of_nat i))).
Proof.
  induction len as [|n IH]; intros a i Hi.
  - lia.
  - destruct i as [|i]; simpl fetch; simpl nth.
    + rewrite Z.add_0_r. reflexivity.
    + rewrite IH by lia. f_equal. f_equal. f_equal. lia.
Qed.

Lemma store_outside (data : list Z) :
  forall r a x,
  (forall i, (i < length data)%nat -> u8 (a + Z.of_nat i) <> x) ->
  store r a data x = r x.
Proof.
  induction data as [|b rest IH]; intros r a x H; simpl.
  - reflexivity.
  - rewrite IH.
    + unfold upd. destruct (Z.eqb_spec x (u8 a)) as [E|E].
      * exfalso. apply (H 0%nat); [simpl; lia|].
        rewrite Z.add_0_r. symmetry. exact E.
      * reflexivity.
    + intros i Hi. specialize (H (S i)).
      replace (a + 1 + Z.of_nat i) with (a + Z.of_nat (S i)) by lia.
      apply H. simpl. lia.
Qed.

(** What [now()] returns, in terms of the registers of the chip. *)
Lemma now_eq (s : Device) :
  now s =
  (now_decode [reg s 0; reg s 1; reg s 2; reg s 3; reg s 4; reg s 5; reg s 6],
   mkDevice (regs s) (bus_log s ++ [BusWriteThenRead [0] 7])).
Proof. reflexivity. Qed.

(** ** BCD *)

Lemma bcd_roundtrip_below_100 (n : Z) :
  0 <= n <= 99 -> bcd2bin (bin2bcd n) = n.
Proof.
  intros H.
  apply Z.eqb_eq.
  apply (all_below_sound 100 (fun k => bcd2bin (bin2bcd k) =? k)).
  - vm_compute. reflexivity.
  - lia.
Qed.

Lemma bin2bcd_bit7_clear (n : Z) :
  0 <= n <= 79 -> Z.land (bin2bcd n) 0x7F = bin2bcd n.
Proof.
  intros H.
  apply Z.eqb_eq.
  apply (all_below_sound 80 (fun k => Z.land (bin2bcd k) 0x7F =? bin2bcd k)).
  - vm_compute. reflexivity.
  - lia.
Qed.

Lemma bin2bcd_byte (x : Z) : u8 (bin2bcd x) = bin2bcd x.
Proof. unfold bin2bcd. apply u8_idem. Qed.

Lemma bin2bcd_u8 (x : Z) : bin2bcd (u8 x) = bin2bcd x.
Proof. unfold bin2bcd. rewrite u8_idem. reflexivity. Qed.

(** The status register is out of reach of the time write of [adjust]. *)
Lemma store_time_keeps (r : Z -> Z) (data : list Z) (x : Z) :
  (length data <= 7)%nat -> 7 <= x < 256 -> store r 0 data x = r x.
Proof.
  intros Hl Hx. apply store_outside. intros i Hi.
  rewrite u8_small by lia. lia.
Qed.

Lemma adjust_eq (dt : DateTime) (s : Device) :
  let statreg := u8 (Z.land (reg s DS3232_STATUSREG) (Z.lnot 0x80)) in
  adjust dt s =
  (tt, mkDevice
         (upd (store (regs s) 0 (tl (adjust_buffer dt))) DS3232_STATUSREG statreg)
         (bus_log s ++ [BusWrite (adjust_buffer dt);
                        BusWriteThenRead [DS3232_STATUSREG] 1;
                        BusWrite [DS3232_STATUSREG; statreg]])).
Proof.
  intros statreg. unfold adjust, bind.
  change (i2c_write (adjust_buffer dt) s)
    with (tt, mkDevice (store (regs s) 0 (tl (adjust_buffer dt)))
                       (bus_log s ++ [BusWrite (adjust_buffer dt)])).
  cbv beta iota.
  rewrite read_register_eq, write_register_eq.
  assert (E : reg (mkDevice (store (regs s) 0 (tl (adjust_buffer dt)))
                            (bus_log s ++ [BusWrite (adjust_buffer dt)]))
                  DS3232_STATUSREG = reg s DS3232_STATUSREG).
  { unfold reg. cbn [regs]. rewrite store_time_keeps.
    - reflexivity.
    - simpl. lia.
    - change (u8 DS3232_STATUSREG) with 15. lia. }
  rewrite E. fold statreg. cbn [regs bus_log].
  rewrite <- !app_assoc.
  replace (u8 statreg) with statreg by (symmetry; apply u8_idem).
  reflexivity.
Qed.

Lemma u8_shift_neq (a k : Z) : 0 < k < 256 -> u8 (a + k) <> u8 a.
Proof.
  clear dayOfTheWeek dowToDS3232 DS3232_OFF.
  unfold u8. intros H. Z.div_mod_to_equations. lia.
Qed.

(** A write transaction of at most 256 bytes leaves byte [i] of the data in
    the [i]-th register after the one addressed. *)
Lemma store_inside (data : list Z) :
  forall r a i,
  (i < length data)%nat -> (length data <= 256)%nat ->
  store r a data (u8 (a + Z.of_nat i)) = u8 (nth i data 0).
Proof.
  induction data as [|b rest IH]; intros r a i Hi Hl; simpl in Hi, Hl.
  - lia.
  - destruct i as [|i]; cbn [store nth].
    + change (Z.of_nat 0) with 0. rewrite Z.add_0_r. rewrite store_outside.
      * unfold upd. rewrite Z.eqb_refl. reflexivity.
      * intros j Hj. rewrite <- Z.add_assoc. apply u8_shift_neq. lia.
    + replace (a + Z.of_nat (S i)) with (a + 1 + Z.of_nat i) by lia.
      apply IH; lia.
Qed.

(** The time registers after [adjust]. *)
Lemma adjust_time_registers (dt : DateTime) (s : Device) (i : nat) :
  (i < 7)%nat ->
  reg (after (adjust dt) s) (Z.of_nat i) = nth (S i) (adjust_buffer dt) 0.
Proof.
  intros Hi. unfold after. rewrite adjust_eq. cbn [snd].
  rewrite reg_upd.
  rewrite (u8_small (Z.of_nat i)) by lia.
  destruct (Z.eqb_spec (Z.of_nat i) DS3232_STATUSREG) as [E|_].
  { unfold DS3232_STATUSREG in E. lia. }
  unfold reg. cbn [regs]. rewrite (u8_small (Z.of_nat i)) by lia.
  rewrite <- (u8_small (0 + Z.of_nat i)) at 1 by lia.
  rewrite store_inside by (simpl; lia).
  rewrite u8_idem.
  do 7 (destruct i as [|i]; [apply bin2bcd_byte|]).
  lia.
Qed.

(** ** Reading and setting the time *)

(** C7: for every n from 0 to 99, [bin2bcd] gives the packed BCD byte
    ((n/10)<<4) | (n%10) with no wrap-around, and [bcd2bin] takes that byte
    back to n. *)
Theorem bcd2bin_bin2bcd (n : Z) :
  0 <= n <= 99 ->
  bin2bcd n = Z.lor (Z.shiftl (n / 10) 4) (n mod 10) /\
  bcd2bin (bin2bcd n) = n.
Proof.
  clear dayOfTheWeek dowToDS3232 DS3232_OFF.
  intros H. split.
  - unfold bin2bcd. rewrite (u8_small n) by lia.
    apply u8_small.
    assert (Hq : 0 <= n / 10 <= 9) by (Z.div_mod_to_equations; lia).
    assert (Hr : 0 <= n mod 10 < 10) by (apply Z.mod_pos_bound; lia).
    split.
    + apply Z.lor_nonneg. split; [apply Z.shiftl_nonneg|]; lia.
    + pose proof (Z.add_lor_land (Z.shiftl (n / 10) 4) (n mod 10)) as A.
      assert (L : 0 <= Z.land (Z.shiftl (n / 10) 4) (n mod 10)).
      { apply Z.land_nonneg. right. lia. }
      rewrite Z.shiftl_mul_pow2 in A, L |- * by lia.
      change (2 ^ 4) with 16 in A, L |- *. lia.
  - apply bcd_roundtrip_below_100. exact H.
Qed.

(** C1 (as the code has it): [now()] reads the seven time registers in one
    write-then-read transaction at register 0; bit 7 is masked off the
    seconds byte and off the month byte before BCD decoding, the minutes,
    hours and day bytes are decoded as they are, and the year is the decoded
    year byte plus 2000. *)
Theorem now_decodes_time_registers (s : Device) :
  result now s =
    mkDateTime (bcd2bin (reg s 6) + 2000)
               (bcd2bin (Z.land (reg s 5) 0x7F))
               (bcd2bin (reg s 4))
               (bcd2bin (reg s 2))
               (bcd2bin (reg s 1))
               (bcd2bin (Z.land (reg s 0) 0x7F)) /\
  after now s =
    mkDevice (regs s) (bus_log s ++ [BusWriteThenRead [DS3232_TIME] 7]).
Proof.
  unfold result, after. rewrite now_eq. split; reflexivity.
Qed.

(** C10: [now()] makes no use of the day-of-week register (register 3, the
    fourth byte read): whatever that register holds, the calendar value
    returned is the same, built from the other six bytes, and so is the day
    of the week the calendar type derives from it. *)
Theorem now_ignores_day_of_week_register (s : Device) (v : Z) :
  result now (mkDevice (upd (regs s) 3 v) (bus_log s)) = result now s /\
  dayOfTheWeek (result now (mkDevice (upd (regs s) 3 v) (bus_log s))) =
    dayOfTheWeek (result now s) /\
  (forall b0 b1 b2 b3 b3' b4 b5 b6,
     now_decode [b0; b1; b2; b3; b4; b5; b6] =
     now_decode [b0; b1; b2; b3'; b4; b5; b6]).
Proof.
  assert (E : result now (mkDevice (upd (regs s) 3 v) (bus_log s)) =
              result now s).
  { unfold result. rewrite !now_eq. cbn [fst]. unfold now_decode.
    cbn [nth]. rewrite !reg_upd.
    repeat match goal with
           | |- context [u8 ?c =? 3] =>
               change (u8 c =? 3) with false
           end.
    cbv iota.
    reflexivity. }
  split; [exact E|]. split.
  - rewrite E. reflexivity.
  - intros. reflexivity.
Qed.

(** C4: for every time value within the ranges of the spec, [adjust]
    followed by [now()] gives the value back: the seven-byte register image
    [adjust] writes decodes, under [now()], to the same six date and time
    fields, and with them to the same day of the week. *)
Theorem adjust_now_roundtrip (s : Device) (t : DateTime) :
  valid_DateTime t ->
  now_decode (tl (adjust_buffer t)) = t /\
  result now (after (adjust t) s) = t /\
  dayOfTheWeek (result now (after (adjust t) s)) = dayOfTheWeek t.
Proof.
  intros (Hy & Hmo & Hd & Hh & Hmi & Hs).
  assert (P : now_decode (tl (adjust_buffer t)) = t).
  { destruct t as [y mo d h mi sec]. cbn [year month day hour minute second] in *.
    unfold now_decode, adjust_buffer.
    cbn [tl nth year month day hour minute second].
    rewrite !bin2bcd_bit7_clear by lia.
    rewrite !bcd_roundtrip_below_100 by lia.
    f_equal. lia. }
  assert (R : result now (after (adjust t) s) = t).
  { assert (G : forall k i, k = Z.of_nat i -> (i < 7)%nat ->
                reg (after (adjust t) s) k = nth (S i) (adjust_buffer t) 0).
    { intros k i -> Hi. apply adjust_time_registers. exact Hi. }
    unfold result. rewrite now_eq. cbn [fst].
    transitivity (now_decode (tl (adjust_buffer t))); [|exact P].
    f_equal.
    rewrite (G 0 0%nat), (G 1 1%nat), (G 2 2%nat), (G 3 3%nat),
            (G 4 4%nat), (G 5 5%nat), (G 6 6%nat) by (reflexivity || lia).
    reflexivity. }
  split; [exact P|]. split; [exact R|]. rewrite R. reflexivity.
Qed.

(** ** Single bits of the control and status registers *)

Lemma byte_check (f : Z -> bool) :
  all_below 256 f = true -> forall x, f (u8 x) = true.
Proof.
  intros H x. apply (all_below_sound 256 f H).
  pose proof (u8_range x). lia.
Qed.

Lemma clear_bit_testbit (b k i : Z) :
  0 <= k ->
  Z.testbit (u8 (Z.land (u8 b) (Z.lnot (2 ^ k)))) i =
  Z.testbit (u8 b) i && negb (i =? k).
Proof.
  intros Hk. destruct (Z.ltb_spec i 0) as [Hi|Hi].
  - rewrite !Z.testbit_neg_r by lia. reflexivity.
  - rewrite !u8_testbit, Z.land_spec, Z.lnot_spec, u8_testbit by lia.
    rewrite Z.pow2_bits_eqb by lia. rewrite (Z.eqb_sym k i).
    destruct (i <? 8), (Z.testbit b i), (i =? k); reflexivity.
Qed.

Lemma set_bit_testbit (b k i : Z) :
  0 <= k < 8 ->
  Z.testbit (u8 (Z.lor (u8 b) (2 ^ k))) i = Z.testbit (u8 b) i || (i =? k).
Proof.
  intros Hk.
  rewrite !u8_testbit, Z.lor_spec, u8_testbit.
  rewrite Z.pow2_bits_eqb by lia. rewrite (Z.eqb_sym k i).
  destruct (Z.eqb_spec i k) as [->|_].
  - destruct (Z.ltb_spec k 8); [|lia].
    destruct (Z.testbit b k); reflexivity.
  - destruct (i <? 8), (Z.testbit b i); reflexivity.
Qed.

(** Reading a register, changing the byte and writing it back: the two
    transactions and the register file they leave. *)
Lemma read_modify_write_eq (r : Z) (f : Z -> Z) (s : Device) :
  (x <- read_register r ;; write_register r (f x)) s =
  (tt, mkDevice (upd (regs s) (u8 r) (u8 (f (reg s r))))
                (bus_log s ++ [BusWriteThenRead [u8 r] 1;
                               BusWrite [u8 r; u8 (f (reg s r))]])).
Proof.
  unfold bind. rewrite read_register_eq, write_register_eq.
  cbn [regs bus_log]. rewrite <- app_assoc. reflexivity.
Qed.

Lemma reg_after_write_same (r : Z -> Z) (l : list BusEvent) (a v : Z) :
  reg (mkDevice (upd r (u8 a) (u8 v)) l) a = u8 v.
Proof. rewrite reg_upd, Z.eqb_refl. apply u8_idem. Qed.

Lemma to_bool_top_bit (x : Z) :
  to_bool (Z.shiftr (u8 x) 7) = Z.testbit (u8 x) 7.
Proof.
  apply eqb_prop.
  apply (byte_check (fun b => eqb (to_bool (Z.shiftr b 7)) (Z.testbit b 7))).
  vm_compute. reflexivity.
Qed.

Lemma to_bool_top_bit_masked (x : Z) :
  to_bool (Z.land (Z.shiftr (u8 x) 7) 1) = Z.testbit (u8 x) 7.
Proof.
  apply eqb_prop.
  apply (byte_check
           (fun b => eqb (to_bool (Z.land (Z.shiftr b 7) 1)) (Z.testbit b 7))).
  vm_compute. reflexivity.
Qed.

Lemma clearOSF_eq (s : Device) :
  clearOSF s =
  (tt, mkDevice
         (upd (regs s) DS3232_STATUSREG
              (u8 (Z.land (reg s DS3232_STATUSREG) (Z.lnot 0x80))))
         (bus_log s ++
          [BusWriteThenRead [DS3232_STATUSREG] 1;
           BusWrite [DS3232_STATUSREG;
                     u8 (Z.land (reg s DS3232_STATUSREG) (Z.lnot 0x80))]])).
Proof.
  unfold clearOSF.
  rewrite (read_modify_write_eq DS3232_STATUSREG
             (fun x => u8 (Z.land x (Z.lnot 0x80)))).
  rewrite u8_idem. reflexivity.
Qed.

Lemma lostPower_eq (s : Device) :
  result lostPower s = Z.testbit (reg s DS3232_STATUSREG) 7.
Proof.
  unfold result, lostPower, bind. rewrite read_register_eq. cbn [ret fst].
  apply to_bool_top_bit.
Qed.

(** C6: [lostPower()] is true exactly when bit 7 of the status register is
    set; [clearOSF()] and [adjust()] each clear that bit and leave the other
    bits of the status register as they were, so [lostPower()] is false
    after either. *)
Theorem lostPower_is_status_bit7 (s : Device) (dt : DateTime) :
  result lostPower s = Z.testbit (reg s DS3232_STATUSREG) 7 /\
  result lostPower (after clearOSF s) = false /\
  result lostPower (after (adjust dt) s) = false /\
  (forall i, i <> 7 ->
     Z.testbit (reg (after clearOSF s) DS3232_STATUSREG) i =
     Z.testbit (reg s DS3232_STATUSREG) i) /\
  (forall i, i <> 7 ->
     Z.testbit (reg (after (adjust dt) s) DS3232_STATUSREG) i =
     Z.testbit (reg s DS3232_STATUSREG) i).
Proof.
  assert (C : reg (after clearOSF s) DS3232_STATUSREG =
              u8 (Z.land (reg s DS3232_STATUSREG) (Z.lnot (2 ^ 7)))).
  { unfold after. rewrite clearOSF_eq. cbn [snd].
    apply (reg_after_write_same _ _ DS3232_STATUSREG). }
  assert (A : reg (after (adjust dt) s) DS3232_STATUSREG =
              u8 (Z.land (reg s DS3232_STATUSREG) (Z.lnot (2 ^ 7)))).
  { unfold after. rewrite adjust_eq. cbn [snd].
    apply (reg_after_write_same _ _ DS3232_STATUSREG). }
  assert (B : forall i,
            Z.testbit (u8 (Z.land (reg s DS3232_STATUSREG) (Z.lnot (2 ^ 7)))) i =
            Z.testbit (reg s DS3232_STATUSREG) i && negb (i =? 7)).
  { intros i. apply clear_bit_testbit. lia. }
  rewrite !lostPower_eq, C, A.
  refine (conj _ (conj _ (conj _ (conj _ _)))).
  - reflexivity.
  - rewrite B. apply andb_false_r.
  - rewrite B. apply andb_false_r.
  - intros i Hi. rewrite B.
    destruct (Z.eqb_spec i 7); [contradiction|apply andb_true_r].
  - intros i Hi. rewrite B.
    destruct (Z.eqb_spec i 7); [contradiction|apply andb_true_r].
Qed.

Lemma enableEOSC_eq (s : Device) :
  enableEOSC s =
  (tt, mkDevice
         (upd (regs s) DS3232_CONTROL
              (u8 (Z.land (reg s DS3232_CONTROL) (Z.lnot (2 ^ 7)))))
         (bus_log s ++
          [BusWriteThenRead [DS3232_CONTROL] 1;
           BusWrite [DS3232_CONTROL;
                     u8 (Z.land (reg s DS3232_CONTROL) (Z.lnot (2 ^ 7)))]])).
Proof.
  unfold enableEOSC.
  rewrite (read_modify_write_eq DS3232_CONTROL
             (fun x => u8 (Z.land x (Z.lnot (Z.shiftl 1 7))))).
  rewrite u8_idem. reflexivity.
Qed.

Lemma disableEOSC_eq (s : Device) :
  disableEOSC s =
  (tt, mkDevice
         (upd (regs s) DS3232_CONTROL
              (u8 (Z.lor (reg s DS3232_CONTROL) (2 ^ 7))))
         (bus_log s ++
          [BusWriteThenRead [DS3232_CONTROL] 1;
           BusWrite [DS3232_CONTROL;
                     u8 (Z.lor (reg s DS3232_CONTROL) (2 ^ 7))]])).
Proof.
  unfold disableEOSC.
  rewrite (read_modify_write_eq DS3232_CONTROL
             (fun x => u8 (Z.lor x (Z.shiftl 1 7)))).
  rewrite u8_idem. reflexivity.
Qed.

(** C8: [enableEOSC()] clears bit 7 of the control register,
    [disableEOSC()] sets it, [isEnabledEOSC()] returns that bit as it is and
    writes nothing; the other bits of the control register are left as they
    were by all three. *)
Theorem EOSC_is_control_bit7 (s : Device) :
  Z.testbit (reg (after enableEOSC s) DS3232_CONTROL) 7 = false /\
  Z.testbit (reg (after disableEOSC s) DS3232_CONTROL) 7 = true /\
  result isEnabledEOSC s = Z.testbit (reg s DS3232_CONTROL) 7 /\
  regs (after isEnabledEOSC s) = regs s /\
  (forall i, i <> 7 ->
     Z.testbit (reg (after enableEOSC s) DS3232_CONTROL) i =
     Z.testbit (reg s DS3232_CONTROL) i) /\
  (forall i, i <> 7 ->
     Z.testbit (reg (after disableEOSC s) DS3232_CONTROL) i =
     Z.testbit (reg s DS3232_CONTROL) i).
Proof.
  assert (En : reg (after enableEOSC s) DS3232_CONTROL =
               u8 (Z.land (reg s DS3232_CONTROL) (Z.lnot (2 ^ 7)))).
  { unfold after. rewrite enableEOSC_eq. cbn [snd].
    apply (reg_after_write_same _ _ DS3232_CONTROL). }
  assert (Dis : reg (after disableEOSC s) DS3232_CONTROL =
                u8 (Z.lor (reg s DS3232_CONTROL) (2 ^ 7))).
  { unfold after. rewrite disableEOSC_eq. cbn [snd].
    apply (reg_after_write_same _ _ DS3232_CONTROL). }
  assert (Bc : forall i,
            Z.testbit (u8 (Z.land (reg s DS3232_CONTROL) (Z.lnot (2 ^ 7)))) i =
            Z.testbit (reg s DS3232_CONTROL) i && negb (i =? 7)).
  { intros i. apply clear_bit_testbit. lia. }
  assert (Bs : forall i,
            Z.testbit (u8 (Z.lor (reg s DS3232_CONTROL) (2 ^ 7))) i =
            Z.testbit (reg s DS3232_CONTROL) i || (i =? 7)).
  { intros i. apply set_bit_testbit. lia. }
  rewrite En, Dis.
  refine (conj _ (conj _ (conj _ (conj _ (conj _ _))))).
  - rewrite Bc. apply andb_false_r.
  - rewrite Bs. apply orb_true_r.
  - unfold result, isEnabledEOSC, bind. rewrite read_register_eq.
    cbn [ret fst]. apply to_bool_top_bit_masked.
  - unfold after, isEnabledEOSC, bind. rewrite read_register_eq.
    reflexivity.
  - intros i Hi. rewrite Bc.
    destruct (Z.eqb_spec i 7); [contradiction|apply andb_true_r].
  - intros i Hi. rewrite Bs.
    destruct (Z.eqb_spec i 7); [contradiction|apply orb_false_r].
Qed.

(** ** The square-wave pin *)

Lemma land_1C_range (x : Z) : Z.land x 0x1C = x -> 0 <= x < 32.
Proof.
  intros H.
  assert (E : Z.land x (Z.ones 5) = x).
  { rewrite <- H at 1. rewrite <- Z.land_assoc. exact H. }
  rewrite Z.land_ones in E by lia. rewrite <- E.
  apply Z.mod_pos_bound. lia.
Qed.

Lemma sqw_field_written (c x : Z) :
  Z.land x 0x1C = x ->
  Z.land (u8 (Z.lor (u8 (Z.land (u8 (Z.land (u8 c) (Z.lnot 0x04)))
                                 (Z.lnot 0x18)))
                    x))
         0x1C = x.
Proof.
  intros H. pose proof (land_1C_range x H) as R.
  pose (f := fun b m =>
    implb (Z.land m 0x1C =? m)
      (Z.land (u8 (Z.lor (u8 (Z.land (u8 (Z.land b (Z.lnot 0x04)))
                                     (Z.lnot 0x18))) m)) 0x1C =? m)).
  assert (A : all_below 256 (fun b => all_below 32 (f b)) = true)
    by (vm_compute; reflexivity).
  pose proof (byte_check _ A c) as B. cbv beta in B.
  pose proof (all_below_sound 32 _ B x ltac:(lia)) as Cx.
  unfold f in Cx. rewrite (proj2 (Z.eqb_eq _ _) H) in Cx.
  apply Z.eqb_eq. exact Cx.
Qed.

Lemma sqw_bit2_byte (c : Z) :
  to_bool (Z.land (Z.land (u8 c) 0x1C) 0x04) = Z.testbit (u8 c) 2.
Proof.
  apply eqb_prop.
  apply (byte_check
           (fun b => eqb (to_bool (Z.land (Z.land b 0x1C) 0x04))
                         (Z.testbit b 2))).
  vm_compute. reflexivity.
Qed.

Lemma readSqwPinMode_eq (s : Device) :
  result readSqwPinMode s =
  if Z.testbit (reg s DS3232_CONTROL) 2 then DS3232_OFF
  else Z.land (reg s DS3232_CONTROL) 0x1C.
Proof.
  unfold result, readSqwPinMode, bind. rewrite read_register_eq.
  cbn [ret fst]. unfold reg. rewrite sqw_bit2_byte. reflexivity.
Qed.

(** C5: for a pin mode whose bit pattern lies in bits 2-4 of the control
    register, [writeSqwPinMode] followed by [readSqwPinMode] returns the
    mode, unless bit 2 of the mode is set, in which case it returns the
    "off" value; and on any device with bit 2 of the control register set,
    [readSqwPinMode] returns "off" whatever bits 3-4 hold. *)
Theorem sqw_write_then_read (s : Device) (mode : Z) :
  Z.land mode 0x1C = mode ->
  result readSqwPinMode (after (writeSqwPinMode mode) s) =
    (if Z.testbit mode 2 then DS3232_OFF else mode) /\
  (forall s', Z.testbit (reg s' DS3232_CONTROL) 2 = true ->
     result readSqwPinMode s' = DS3232_OFF).
Proof.
  intros H. split.
  - assert (W : Z.land (reg (after (writeSqwPinMode mode) s) DS3232_CONTROL)
                       0x1C = mode).
    { unfold after, writeSqwPinMode.
      rewrite (read_modify_write_eq DS3232_CONTROL
                 (fun c => Z.lor (u8 (Z.land (u8 (Z.land c (Z.lnot 0x04)))
                                             (Z.lnot 0x18))) mode)).
      cbn [snd]. rewrite (reg_after_write_same _ _ DS3232_CONTROL).
      unfold reg. apply sqw_field_written. exact H. }
    assert (T : Z.testbit (reg (after (writeSqwPinMode mode) s)
                               DS3232_CONTROL) 2 = Z.testbit mode 2).
    { rewrite <- W at 2. rewrite Z.land_spec.
      change (Z.testbit 28 2) with true. symmetry. apply andb_true_r. }
    rewrite readSqwPinMode_eq, T, W. reflexivity.
  - intros s' Hs'. rewrite readSqwPinMode_eq, Hs'. reflexivity.
Qed.

(** ** Alarms *)

Lemma land_pow2_cases (m k : Z) :
  0 <= k -> Z.land m (2 ^ k) = if Z.testbit m k then 2 ^ k else 0.
Proof.
  intros Hk. apply Z.bits_inj'. intros i Hi.
  rewrite Z.land_spec, Z.pow2_bits_eqb by lia.
  destruct (Z.eqb_spec k i) as [->|N].
  - destruct (Z.testbit m i) eqn:E; simpl.
    + symmetry. apply Z.pow2_bits_true. lia.
    + symmetry. apply Z.bits_0.
  - rewrite andb_false_r.
    destruct (Z.testbit m k).
    + symmetry. apply Z.pow2_bits_false. exact N.
    + symmetry. apply Z.bits_0.
Qed.

Lemma u8_lor (a b : Z) : u8 (Z.lor (u8 a) (u8 b)) = Z.lor (u8 a) (u8 b).
Proof.
  apply Z.bits_inj'. intros i Hi.
  rewrite u8_testbit, Z.lor_spec, !u8_testbit.
  destruct (i <? 8); reflexivity.
Qed.

Lemma mask_bit_byte (b : bool) : mask_bit b = u8 (mask_bit b).
Proof. destruct b; reflexivity. Qed.

Lemma dydt_bit_byte (b : bool) : dydt_bit b = u8 (dydt_bit b).
Proof. destruct b; reflexivity. Qed.

Lemma u8_lor_bcd_mask (x : Z) (b : bool) :
  u8 (Z.lor (bin2bcd x) (mask_bit b)) = Z.lor (bin2bcd x) (mask_bit b).
Proof.
  rewrite (mask_bit_byte b). unfold bin2bcd. apply u8_lor.
Qed.

Lemma u8_lor_bcd_mask_dydt (x : Z) (b c : bool) :
  u8 (Z.lor (Z.lor (bin2bcd x) (mask_bit b)) (dydt_bit c)) =
  Z.lor (Z.lor (bin2bcd x) (mask_bit b)) (dydt_bit c).
Proof.
  rewrite <- (u8_lor_bcd_mask x b), (dydt_bit_byte c). apply u8_lor.
Qed.

Lemma mode_mask_bit (m k : Z) :
  0 <= k <= 7 ->
  u8 (Z.shiftl (Z.land m (2 ^ k)) (7 - k)) = mask_bit (Z.testbit m k).
Proof.
  intros Hk. rewrite land_pow2_cases by lia.
  destruct (Z.testbit m k); [|rewrite Z.shiftl_0_l; reflexivity].
  rewrite Z.shiftl_mul_pow2 by lia.
  rewrite <- Z.pow_add_r by lia.
  replace (k + (7 - k)) with 7 by lia. reflexivity.
Qed.

Lemma mode_dydt_bit (m k : Z) :
  0 <= k <= 6 ->
  u8 (Z.shiftl (Z.land m (2 ^ k)) (6 - k)) = dydt_bit (Z.testbit m k).
Proof.
  intros Hk. rewrite land_pow2_cases by lia.
  destruct (Z.testbit m k); [|rewrite Z.shiftl_0_l; reflexivity].
  rewrite Z.shiftl_mul_pow2 by lia.
  rewrite <- Z.pow_add_r by lia.
  replace (k + (6 - k)) with 6 by lia. reflexivity.
Qed.

(** The mask and selector bytes both [setAlarm]s compute from the mode. *)
Lemma mode_bits (m : Z) :
  u8 (Z.shiftl (Z.land m 0x01) 7) = mask_bit (Z.testbit m 0) /\
  u8 (Z.shiftl (Z.land m 0x02) 6) = mask_bit (Z.testbit m 1) /\
  u8 (Z.shiftl (Z.land m 0x04) 5) = mask_bit (Z.testbit m 2) /\
  u8 (Z.shiftl (Z.land m 0x08) 4) = mask_bit (Z.testbit m 3) /\
  u8 (Z.shiftl (Z.land m 0x10) 2) = dydt_bit (Z.testbit m 4) /\
  u8 (Z.shiftl (Z.land m 0x08) 3) = dydt_bit (Z.testbit m 3).
Proof.
  refine (conj _ (conj _ (conj _ (conj _ (conj _ _))))).
  - exact (mode_mask_bit m 0 ltac:(lia)).
  - exact (mode_mask_bit m 1 ltac:(lia)).
  - exact (mode_mask_bit m 2 ltac:(lia)).
  - exact (mode_mask_bit m 3 ltac:(lia)).
  - exact (mode_dydt_bit m 4 ltac:(lia)).
  - exact (mode_dydt_bit m 3 ltac:(lia)).
Qed.

Lemma to_bool_dydt_bit (b : bool) : to_bool (dydt_bit b) = b.
Proof. destruct b; reflexivity. Qed.

Lemma alarm1_buffer_eq (dt : DateTime) (m : Z) :
  alarm1_buffer dt m = DS3232_ALARM1 :: alarm1_registers dt m.
Proof.
  unfold alarm1_buffer, alarm1_registers, alarm_day.
  destruct (mode_bits m) as (M0 & M1 & M2 & M3 & D4 & _).
  rewrite M0, M1, M2, M3, D4.
  rewrite to_bool_dydt_bit, bin2bcd_u8.
  rewrite !u8_lor_bcd_mask, u8_lor_bcd_mask_dydt.
  reflexivity.
Qed.

Lemma alarm2_buffer_eq (dt : DateTime) (m : Z) :
  alarm2_buffer dt m = DS3232_ALARM2 :: alarm2_registers dt m.
Proof.
  unfold alarm2_buffer, alarm2_registers, alarm_day.
  destruct (mode_bits m) as (M0 & M1 & M2 & _ & _ & D3).
  rewrite M0, M1, M2, D3.
  rewrite to_bool_dydt_bit, bin2bcd_u8.
  rewrite !u8_lor_bcd_mask, u8_lor_bcd_mask_dydt.
  reflexivity.
Qed.

Lemma to_bool_bit2 (x : Z) :
  to_bool (Z.land (u8 x) 0x04) = Z.testbit (u8 x) 2.
Proof.
  apply eqb_prop.
  apply (byte_check (fun b => eqb (to_bool (Z.land b 0x04)) (Z.testbit b 2))).
  vm_compute. reflexivity.
Qed.

Lemma writes_app_read (l : list BusEvent) (out : list Z) (len : nat) :
  writes (l ++ [BusWriteThenRead out len]) = writes l.
Proof.
  unfold writes. rewrite filter_app. simpl. apply app_nil_r.
Qed.

(** The shape both [setAlarm]s share, when the guard refuses. *)
Lemma alarm_guard_off (buffer : list Z) (ie : Z) (s : Device) :
  Z.testbit (reg s DS3232_CONTROL) 2 = false ->
  (ctrl <- read_register DS3232_CONTROL ;;
   if negb (to_bool (Z.land ctrl 0x04)) then ret false
   else i2c_write buffer ;;;
        write_register DS3232_CONTROL (Z.lor ctrl (2 ^ ie)) ;;;
        ret true) s =
  (false,
   mkDevice (regs s) (bus_log s ++ [BusWriteThenRead [DS3232_CONTROL] 1])).
Proof.
  intros H. unfold bind at 1. rewrite read_register_eq.
  unfold reg at 1. rewrite to_bool_bit2. fold (reg s DS3232_CONTROL).
  rewrite H. reflexivity.
Qed.

(** The same shape when the guard lets the write through. *)
Lemma alarm_guard_on (base ie : Z) (bytes : list Z) (s : Device) :
  Z.testbit (reg s DS3232_CONTROL) 2 = true ->
  (ctrl <- read_register DS3232_CONTROL ;;
   if negb (to_bool (Z.land ctrl 0x04)) then ret false
   else i2c_write (base :: bytes) ;;;
        write_register DS3232_CONTROL (Z.lor ctrl (2 ^ ie)) ;;;
        ret true) s =
  (true,
   mkDevice (upd (store (regs s) base bytes) DS3232_CONTROL
                 (u8 (Z.lor (reg s DS3232_CONTROL) (2 ^ ie))))
            (bus_log s ++
             [BusWriteThenRead [DS3232_CONTROL] 1;
              BusWrite (base :: bytes);
              BusWrite [DS3232_CONTROL;
                        u8 (Z.lor (reg s DS3232_CONTROL) (2 ^ ie))]])).
Proof.
  intros H. unfold bind at 1. rewrite read_register_eq.
  unfold reg at 1. rewrite to_bool_bit2. fold (reg s DS3232_CONTROL).
  rewrite H. cbn [negb]. unfold bind, i2c_write.
  rewrite write_register_eq. cbn [regs bus_log ret].
  rewrite <- !app_assoc. reflexivity.
Qed.

Lemma alarm_written_after (base ie : Z) (bytes : list Z) (s : Device) :
  0 <= base -> base + Z.of_nat (length bytes) <= DS3232_CONTROL ->
  0 <= ie < 8 ->
  Forall (fun b => u8 b = b) bytes ->
  alarm_written base bytes ie s
    (mkDevice (upd (store (regs s) base bytes) DS3232_CONTROL
                   (u8 (Z.lor (reg s DS3232_CONTROL) (2 ^ ie))))
              (bus_log s ++
               [BusWriteThenRead [DS3232_CONTROL] 1;
                BusWrite (base :: bytes);
                BusWrite [DS3232_CONTROL;
                          u8 (Z.lor (reg s DS3232_CONTROL) (2 ^ ie))]])).
Proof.
  intros Hb Hl Hie Hbytes. unfold DS3232_CONTROL in Hl.
  assert (P2 : 2 ^ ie = u8 (2 ^ ie)).
  { symmetry. apply u8_small. split; [apply Z.pow_nonneg; lia|].
    change 256 with (2 ^ 8). apply Z.pow_lt_mono_r; lia. }
  assert (E : u8 (Z.lor (reg s DS3232_CONTROL) (2 ^ ie)) =
              Z.lor (reg s DS3232_CONTROL) (2 ^ ie)).
  { rewrite P2. unfold reg. apply u8_lor. }
  refine (conj _ (conj _ (conj _ _))); cbn [bus_log].
  - rewrite E. reflexivity.
  - intros i Hi. rewrite reg_upd.
    rewrite (u8_small (base + Z.of_nat i)) by lia.
    destruct (Z.eqb_spec (base + Z.of_nat i) DS3232_CONTROL) as [C|_].
    { unfold DS3232_CONTROL in C. lia. }
    unfold reg. cbn [regs].
    rewrite store_inside by lia. rewrite u8_idem.
    rewrite Forall_forall in Hbytes. apply Hbytes. apply nth_In. exact Hi.
  - intros i. change DS3232_CONTROL with (u8 DS3232_CONTROL) at 2.
    rewrite (reg_after_write_same _ _ DS3232_CONTROL).
    unfold reg. apply set_bit_testbit. exact Hie.
  - intros a Ha Hout Hc. rewrite reg_upd.
    rewrite (u8_small a) by lia.
    destruct (Z.eqb_spec a DS3232_CONTROL) as [C|_]; [contradiction|].
    unfold reg. cbn [regs]. rewrite (u8_small a) by lia.
    rewrite store_outside; [reflexivity|].
    intros i Hi. rewrite u8_small by lia. lia.
Qed.

Lemma alarm1_registers_bytes (dt : DateTime) (m : Z) :
  Forall (fun b => u8 b = b) (alarm1_registers dt m).
Proof.
  unfold alarm1_registers.
  repeat (apply Forall_cons; [first [apply u8_lor_bcd_mask
                                    |apply u8_lor_bcd_mask_dydt]|]).
  apply Forall_nil.
Qed.

Lemma alarm2_registers_bytes (dt : DateTime) (m : Z) :
  Forall (fun b => u8 b = b) (alarm2_registers dt m).
Proof.
  unfold alarm2_registers.
  repeat (apply Forall_cons; [first [apply u8_lor_bcd_mask
                                    |apply u8_lor_bcd_mask_dydt]|]).
  apply Forall_nil.
Qed.

(** C2: with bit 2 of the control register clear, [setAlarm1] and
    [setAlarm2] return false, write nothing to the bus and leave every
    register as it was; with that bit set they return true, write the alarm
    registers the spec documents in one transaction (five bytes at the
    alarm-1 base, four at the alarm-2 base) and then set bit 0 (A1IE),
    respectively bit 1 (A2IE), of the control register, whose other bits
    stay as they were. *)
Theorem setAlarm_guarded_by_control_bit2
    (s : Device) (dt : DateTime) (alarm_mode : Z) :
  if Z.testbit (reg s DS3232_CONTROL) 2 then
    result (setAlarm1 dt alarm_mode) s = true /\
    alarm_written DS3232_ALARM1 (alarm1_registers dt alarm_mode) 0 s
                  (after (setAlarm1 dt alarm_mode) s) /\
    result (setAlarm2 dt alarm_mode) s = true /\
    alarm_written DS3232_ALARM2 (alarm2_registers dt alarm_mode) 1 s
                  (after (setAlarm2 dt alarm_mode) s)
  else
    result (setAlarm1 dt alarm_mode) s = false /\
    alarm_skipped s (after (setAlarm1 dt alarm_mode) s) /\
    result (setAlarm2 dt alarm_mode) s = false /\
    alarm_skipped s (after (setAlarm2 dt alarm_mode) s).
Proof.
  destruct (Z.testbit (reg s DS3232_CONTROL) 2) eqn:G.
  - assert (R1 := alarm_guard_on DS3232_ALARM1 0
                    (alarm1_registers dt alarm_mode) s G).
    assert (R2 := alarm_guard_on DS3232_ALARM2 1
                    (alarm2_registers dt alarm_mode) s G).
    match type of R1 with
    | _ = ?rhs => assert (E1 : setAlarm1 dt alarm_mode s = rhs)
    end.
    { unfold setAlarm1. rewrite alarm1_buffer_eq. exact R1. }
    match type of R2 with
    | _ = ?rhs => assert (E2 : setAlarm2 dt alarm_mode s = rhs)
    end.
    { unfold setAlarm2. rewrite alarm2_buffer_eq. exact R2. }
    clear R1 R2.
    unfold result, after. rewrite E1, E2. cbn [fst snd].
    refine (conj _ (conj _ (conj _ _))).
    + reflexivity.
    + apply alarm_written_after.
      * unfold DS3232_ALARM1. lia.
      * unfold DS3232_ALARM1, DS3232_CONTROL. simpl. lia.
      * lia.
      * apply alarm1_registers_bytes.
    + reflexivity.
    + apply alarm_written_after.
      * unfold DS3232_ALARM2. lia.
      * unfold DS3232_ALARM2, DS3232_CONTROL. simpl. lia.
      * lia.
      * apply alarm2_registers_bytes.
  - pose proof (alarm_guard_off (alarm1_buffer dt alarm_mode) 0 s G) as R1.
    pose proof (alarm_guard_off (alarm2_buffer dt alarm_mode) 1 s G) as R2.
    match type of R1 with
    | _ = ?rhs => change (setAlarm1 dt alarm_mode s = rhs) in R1
    end.
    match type of R2 with
    | _ = ?rhs => change (setAlarm2 dt alarm_mode s = rhs) in R2
    end.
    unfold result, after. rewrite R1, R2. cbn [fst snd].
    unfold alarm_skipped. cbn [regs bus_log].
    rewrite writes_app_read.
    refine (conj _ (conj (conj _ (conj _ _)) (conj _ (conj _ (conj _ _)))));
      reflexivity.
Qed.

(** ** Temperature *)

Lemma getTemperature_eq (s : Device) :
  result getTemperature s =
  temperature_decode [reg s DS3232_TEMPERATUREREG;
                      reg s (DS3232_TEMPERATUREREG + 1)].
Proof. reflexivity. Qed.

(** Where the first byte is below 128 the value returned is the one the
    spec describes. *)
Lemma getTemperature_nonnegative (s : Device) :
  reg s DS3232_TEMPERATUREREG < 128 ->
  result getTemperature s =
  temperature_spec [reg s DS3232_TEMPERATUREREG;
                    reg s (DS3232_TEMPERATUREREG + 1)].
Proof.
  intros H. rewrite getTemperature_eq.
  unfold temperature_spec, temperature_decode, signed8. cbn [nth].
  destruct (Z.ltb_spec (reg s DS3232_TEMPERATUREREG) 128); [reflexivity|lia].
Qed.

(** The byte pair (23, 0b01000000) decodes to 23.25. *)
Example getTemperature_23_25 :
  result getTemperature sample_device == 93 # 4.
Proof. vm_compute. reflexivity. Qed.

(** C3 (where the code departs from it): with 0xFF and 0x00 in the
    temperature registers, one degree below zero, [getTemperature()]
    returns 255: the first byte is read as an unsigned number, where the
    spec reads it as a signed one and gives -1. *)
Theorem getTemperature_reads_unsigned_byte :
  result getTemperature freezing_device == 255 # 1 /\
  temperature_spec [0xFF; 0x00] == - 1 # 1 /\
  ~ result getTemperature freezing_device == temperature_spec [0xFF; 0x00].
Proof.
  refine (conj _ (conj _ _)).
  - vm_compute. reflexivity.
  - vm_compute. reflexivity.
  - vm_compute. discriminate.
Qed.

(** ** NVRAM *)

Lemma nvram_address (a : Z) :
  u8 (DS3232_NVRAM + u8 a) = (DS3232_NVRAM + a) mod 256.
Proof. unfold u8. apply Z.add_mod_idemp_r. lia. Qed.

Lemma fetch_reg (s : Device) (a : Z) (len i : nat) :
  (i < len)%nat ->
  nth i (fetch (regs s) a len) 0 = reg s (a + Z.of_nat i).
Proof. intros H. rewrite fetch_nth by exact H. reflexivity. Qed.

Lemma readnvram_eq (size : nat) (a : Z) (s : Device) :
  readnvram size a s =
  (fetch (regs s) ((DS3232_NVRAM + a) mod 256) size,
   mkDevice (regs s)
            (bus_log s ++
             [BusWriteThenRead [(DS3232_NVRAM + a) mod 256] size])).
Proof.
  unfold readnvram, i2c_write_then_read. rewrite nvram_address.
  cbn [store length Z.of_nat]. rewrite Z.add_0_r. reflexivity.
Qed.

Lemma writenvram_eq (a : Z) (buf : list Z) (size : nat) (s : Device) :
  writenvram a buf size s =
  (tt, mkDevice (store (regs s) ((DS3232_NVRAM + a) mod 256) (firstn size buf))
                (bus_log s ++
                 [BusWrite ((DS3232_NVRAM + a) mod 256 :: firstn size buf)])).
Proof.
  unfold writenvram, i2c_write_prefixed, i2c_write. rewrite nvram_address.
  reflexivity.
Qed.

(** C9: the NVRAM operations address register (0x14 + address) mod 256 and
    check no bound, in the buffer forms and in the one-byte forms alike; so
    for an address from 236 to 255 the access lands on register
    address - 236, below the NVRAM base: at address 236 a read returns the
    seconds register and a write overwrites it. *)
Theorem nvram_address_wraps (s : Device) (address data : Z) :
  236 <= address <= 255 ->
  (forall a size,
     after (readnvram size a) s =
     mkDevice (regs s)
              (bus_log s ++
               [BusWriteThenRead [(DS3232_NVRAM + a) mod 256] size])) /\
  (forall a size i, (i < size)%nat ->
     nth i (result (readnvram size a) s) 0 =
     reg s ((DS3232_NVRAM + a) mod 256 + Z.of_nat i)) /\
  (forall a buf size,
     bus_log (after (writenvram a buf size) s) =
     bus_log s ++
     [BusWrite ((DS3232_NVRAM + a) mod 256 :: firstn size buf)]) /\
  (DS3232_NVRAM + address) mod 256 = address - 236 /\
  address - 236 < DS3232_NVRAM /\
  result (readnvram_byte address) s = reg s (address - 236) /\
  reg (after (writenvram_byte address data) s) (address - 236) = u8 data /\
  result (readnvram_byte 236) s = reg s DS3232_TIME /\
  reg (after (writenvram_byte 236 data) s) DS3232_TIME = u8 data.
Proof.
  intros H.
  assert (W : forall a, 236 <= a <= 255 ->
                (DS3232_NVRAM + a) mod 256 = a - 236).
  { intros a Ha. unfold DS3232_NVRAM.
    replace (20 + a) with (a - 236 + 1 * 256) by lia.
    rewrite Z.mod_add by lia. apply Z.mod_small. lia. }
  assert (R : forall a, 236 <= a <= 255 ->
                result (readnvram_byte a) s = reg s (a - 236)).
  { intros a Ha. unfold result, readnvram_byte, bind.
    rewrite readnvram_eq. cbn [ret fst].
    rewrite (fetch_reg s _ 1 0) by lia.
    rewrite W by exact Ha. rewrite Z.add_0_r. reflexivity. }
  assert (Wr : forall a, 236 <= a <= 255 ->
                 reg (after (writenvram_byte a data) s) (a - 236) = u8 data).
  { intros a Ha. unfold after, writenvram_byte.
    rewrite writenvram_eq. cbn [snd firstn store].
    rewrite W by exact Ha. rewrite reg_upd.
    rewrite Z.eqb_refl. rewrite !u8_idem. reflexivity. }
  refine (conj _ (conj _ (conj _ (conj _ (conj _
           (conj _ (conj _ (conj _ _)))))))).
  - intros a size. unfold after. rewrite readnvram_eq. reflexivity.
  - intros a size i Hi. unfold result. rewrite readnvram_eq. cbn [fst].
    apply fetch_reg. exact Hi.
  - intros a buf size. unfold after. rewrite writenvram_eq. reflexivity.
  - apply W. exact H.
  - unfold DS3232_NVRAM. lia.
  - apply R. exact H.
  - apply Wr. exact H.
  - apply (R 236). lia.
  - apply (Wr 236). lia.
Qed.

(** ** Flags of the status register and alarm enables *)

Lemma to_bool_b2z (b : bool) : to_bool (Z.b2z b) = b.
Proof. destruct b; reflexivity. Qed.

Lemma to_bool_bit (x k : Z) :
  0 <= k -> to_bool (Z.land (Z.shiftr x k) 1) = Z.testbit x k.
Proof.
  intros Hk.
  pose proof (Z.land_ones (Z.shiftr x k) 1 ltac:(lia)) as E.
  change (Z.ones 1) with 1 in E. change (2 ^ 1) with 2 in E.
  rewrite E, <- Z.bit0_mod, Z.shiftr_spec by lia.
  rewrite Z.add_0_l. apply to_bool_b2z.
Qed.

(** Reading register [r] and returning bit [k] of it. *)
Lemma read_bit_eq (r k : Z) (s : Device) :
  0 <= k ->
  (x <- read_register r ;; ret (to_bool (Z.land (Z.shiftr x k) 1))) s =
  (Z.testbit (reg s r) k,
   mkDevice (regs s) (bus_log s ++ [BusWriteThenRead [u8 r] 1])).
Proof.
  intros Hk. unfold bind. rewrite read_register_eq. unfold ret.
  rewrite to_bool_bit by exact Hk. reflexivity.
Qed.

(** Clearing bit [k] of register [r] by read, mask and write. *)
Lemma clear_bit_rmw (r k : Z) (s : Device) :
  0 <= k ->
  (forall i,
     Z.testbit
       (reg (after (x <- read_register r ;;
                    write_register r
                      (u8 (Z.land x (Z.lnot (Z.shiftl 1 k))))) s) r) i =
     Z.testbit (reg s r) i && negb (i =? k)) /\
  (forall a, u8 a <> u8 r ->
     reg (after (x <- read_register r ;;
                 write_register r
                   (u8 (Z.land x (Z.lnot (Z.shiftl 1 k))))) s) a =
     reg s a).
Proof.
  intros Hk. unfold after.
  rewrite (read_modify_write_eq r
             (fun x => u8 (Z.land x (Z.lnot (Z.shiftl 1 k))))).
  cbn [snd]. split.
  - intros i. rewrite reg_after_write_same, u8_idem.
    rewrite Z.shiftl_1_l. unfold reg. apply clear_bit_testbit. exact Hk.
  - intros a Ha. rewrite reg_upd.
    destruct (Z.eqb_spec (u8 a) (u8 r)); [contradiction|reflexivity].
Qed.

(** Setting bit [k] of register [r] by read, or and write. *)
Lemma set_bit_rmw (r k : Z) (s : Device) :
  0 <= k < 8 ->
  (forall i,
     Z.testbit
       (reg (after (x <- read_register r ;;
                    write_register r (u8 (Z.lor x (Z.shiftl 1 k)))) s) r) i =
     Z.testbit (reg s r) i || (i =? k)) /\
  (forall a, u8 a <> u8 r ->
     reg (after (x <- read_register r ;;
                 write_register r (u8 (Z.lor x (Z.shiftl 1 k)))) s) a =
     reg s a).
Proof.
  intros Hk. unfold after.
  rewrite (read_modify_write_eq r (fun x => u8 (Z.lor x (Z.shiftl 1 k)))).
  cbn [snd]. split.
  - intros i. rewrite reg_after_write_same, u8_idem.
    rewrite Z.shiftl_1_l. unfold reg. apply set_bit_testbit. exact Hk.
  - intros a Ha. rewrite reg_upd.
    destruct (Z.eqb_spec (u8 a) (u8 r)); [contradiction|reflexivity].
Qed.

Lemma alarmFired_eq (n : Z) (s : Device) :
  1 <= n <= 8 ->
  result (alarmFired n) s = Z.testbit (reg s DS3232_STATUSREG) (n - 1).
Proof.
  intros Hn. unfold result, alarmFired.
  rewrite (read_bit_eq DS3232_STATUSREG (u8 n - 1)).
  - rewrite u8_small by lia. reflexivity.
  - rewrite u8_small by lia. lia.
Qed.

Lemma clearAlarm_status (n : Z) (s : Device) :
  1 <= n <= 8 ->
  (forall i,
     Z.testbit (reg (after (clearAlarm n) s) DS3232_STATUSREG) i =
     Z.testbit (reg s DS3232_STATUSREG) i && negb (i =? n - 1)) /\
  (forall a, 0 <= a < 256 -> a <> DS3232_STATUSREG ->
     reg (after (clearAlarm n) s) a = reg s a).
Proof.
  intros Hn.
  destruct (clear_bit_rmw DS3232_STATUSREG (u8 n - 1) s) as [B F].
  { rewrite u8_small by lia. lia. }
  split.
  - intros i. change (clearAlarm n) with
      (x <- read_register DS3232_STATUSREG ;;
       write_register DS3232_STATUSREG
         (u8 (Z.land x (Z.lnot (Z.shiftl 1 (u8 n - 1)))))).
    rewrite (B i). rewrite u8_small by lia. reflexivity.
  - intros a Ha Hne. apply F. rewrite (u8_small a) by lia. exact Hne.
Qed.

(** X1: [alarmFired(n)] returns bit n-1 of the status register; after
    [clearAlarm(n)] it is false, the flag of every other number keeps its
    value, no other register changes, and [lostPower()] is unchanged unless
    n is 8.  The number is not checked: any n from 1 to 8 selects a bit of
    the status register. *)
Theorem clearAlarm_clears_only_its_flag (s : Device) (n m : Z) :
  1 <= n <= 8 -> 1 <= m <= 8 ->
  result (alarmFired m) s = Z.testbit (reg s DS3232_STATUSREG) (m - 1) /\
  result (alarmFired n) (after (clearAlarm n) s) = false /\
  (m <> n ->
   result (alarmFired m) (after (clearAlarm n) s) = result (alarmFired m) s) /\
  (n <> 8 ->
   result lostPower (after (clearAlarm n) s) = result lostPower s) /\
  (forall a, 0 <= a < 256 -> a <> DS3232_STATUSREG ->
     reg (after (clearAlarm n) s) a = reg s a).
Proof.
  intros Hn Hm. destruct (clearAlarm_status n s Hn) as [B F].
  refine (conj _ (conj _ (conj _ (conj _ _)))).
  - apply alarmFired_eq. exact Hm.
  - rewrite alarmFired_eq, B by exact Hn.
    rewrite Z.eqb_refl. apply andb_false_r.
  - intros Hne. rewrite !alarmFired_eq, B by exact Hm.
    destruct (Z.eqb_spec (m - 1) (n - 1)); [lia|apply andb_true_r].
  - intros Hne. rewrite !lostPower_eq, B.
    destruct (Z.eqb_spec 7 (n - 1)); [lia|apply andb_true_r].
  - exact F.
Qed.

Lemma disableAlarm_control (n : Z) (s : Device) :
  1 <= n <= 8 ->
  (forall i,
     Z.testbit (reg (after (disableAlarm n) s) DS3232_CONTROL) i =
     Z.testbit (reg s DS3232_CONTROL) i && negb (i =? n - 1)) /\
  (forall a, 0 <= a < 256 -> a <> DS3232_CONTROL ->
     reg (after (disableAlarm n) s) a = reg s a).
Proof.
  intros Hn.
  destruct (clear_bit_rmw DS3232_CONTROL (u8 n - 1) s) as [B F].
  { rewrite u8_small by lia. lia. }
  split.
  - intros i. change (disableAlarm n) with
      (x <- read_register DS3232_CONTROL ;;
       write_register DS3232_CONTROL
         (u8 (Z.land x (Z.lnot (Z.shiftl 1 (u8 n - 1)))))).
    rewrite (B i). rewrite u8_small by lia. reflexivity.
  - intros a Ha Hne. apply F. rewrite (u8_small a) by lia. exact Hne.
Qed.

(** Both [setAlarm]s return the guard bit. *)
Lemma setAlarm_result (dt : DateTime) (m : Z) (s : Device) :
  result (setAlarm1 dt m) s = Z.testbit (reg s DS3232_CONTROL) 2 /\
  result (setAlarm2 dt m) s = Z.testbit (reg s DS3232_CONTROL) 2.
Proof.
  unfold result. destruct (Z.testbit (reg s DS3232_CONTROL) 2) eqn:G.
  - split.
    + change (setAlarm1 dt m s) with
        ((ctrl <- read_register DS3232_CONTROL ;;
          if negb (to_bool (Z.land ctrl 0x04)) then ret false
          else i2c_write (alarm1_buffer dt m) ;;;
               write_register DS3232_CONTROL (Z.lor ctrl (2 ^ 0)) ;;;
               ret true) s).
      rewrite alarm1_buffer_eq, alarm_guard_on by exact G. reflexivity.
    + change (setAlarm2 dt m s) with
        ((ctrl <- read_register DS3232_CONTROL ;;
          if negb (to_bool (Z.land ctrl 0x04)) then ret false
          else i2c_write (alarm2_buffer dt m) ;;;
               write_register DS3232_CONTROL (Z.lor ctrl (2 ^ 1)) ;;;
               ret true) s).
      rewrite alarm2_buffer_eq, alarm_guard_on by exact G. reflexivity.
  - split.
    + change (setAlarm1 dt m s) with
        ((ctrl <- read_register DS3232_CONTROL ;;
          if negb (to_bool (Z.land ctrl 0x04)) then ret false
          else i2c_write (alarm1_buffer dt m) ;;;
               write_register DS3232_CONTROL (Z.lor ctrl (2 ^ 0)) ;;;
               ret true) s).
      rewrite alarm_guard_off by exact G. reflexivity.
    + change (setAlarm2 dt m s) with
        ((ctrl <- read_register DS3232_CONTROL ;;
          if negb (to_bool (Z.land ctrl 0x04)) then ret false
          else i2c_write (alarm2_buffer dt m) ;;;
               write_register DS3232_CONTROL (Z.lor ctrl (2 ^ 1)) ;;;
               ret true) s).
      rewrite alarm_guard_off by exact G. reflexivity.
Qed.

(** The device a successful [setAlarm1] leaves. *)
Lemma setAlarm1_on (dt : DateTime) (m : Z) (s : Device) :
  Z.testbit (reg s DS3232_CONTROL) 2 = true ->
  alarm_written DS3232_ALARM1 (alarm1_registers dt m) 0 s
                (after (setAlarm1 dt m) s).
Proof.
  intros G. unfold after.
  change (setAlarm1 dt m s) with
    ((ctrl <- read_register DS3232_CONTROL ;;
      if negb (to_bool (Z.land ctrl 0x04)) then ret false
      else i2c_write (alarm1_buffer dt m) ;;;
           write_register DS3232_CONTROL (Z.lor ctrl (2 ^ 0)) ;;;
           ret true) s).
  rewrite alarm1_buffer_eq, alarm_guard_on by exact G. cbn [snd].
  apply alarm_written_after.
  - unfold DS3232_ALARM1. lia.
  - unfold DS3232_ALARM1, DS3232_CONTROL. simpl. lia.
  - lia.
  - apply alarm1_registers_bytes.
Qed.

(** The device a successful [setAlarm2] leaves. *)
Lemma setAlarm2_on (dt : DateTime) (m : Z) (s : Device) :
  Z.testbit (reg s DS3232_CONTROL) 2 = true ->
  alarm_written DS3232_ALARM2 (alarm2_registers dt m) 1 s
                (after (setAlarm2 dt m) s).
Proof.
  intros G. unfold after.
  change (setAlarm2 dt m s) with
    ((ctrl <- read_register DS3232_CONTROL ;;
      if negb (to_bool (Z.land ctrl 0x04)) then ret false
      else i2c_write (alarm2_buffer dt m) ;;;
           write_register DS3232_CONTROL (Z.lor ctrl (2 ^ 1)) ;;;
           ret true) s).
  rewrite alarm2_buffer_eq, alarm_guard_on by exact G. cbn [snd].
  apply alarm_written_after.
  - unfold DS3232_ALARM2. lia.
  - unfold DS3232_ALARM2, DS3232_CONTROL. simpl. lia.
  - lia.
  - apply alarm2_registers_bytes.
Qed.

(** X2: [disableAlarm(n)], for n from 1 to 8, clears bit n-1 of the control
    register and changes nothing else on the chip.  The number is not
    checked: 1 and 2 clear the alarm interrupt enables and leave the guard
    of [setAlarm1]/[setAlarm2] (bit 2) alone, while 3 clears that guard
    bit, after which both [setAlarm]s return false. *)
Theorem disableAlarm_clears_only_its_bit
    (s : Device) (n : Z) (dt : DateTime) (alarm_mode : Z) :
  1 <= n <= 8 ->
  Z.testbit (reg (after (disableAlarm n) s) DS3232_CONTROL) (n - 1) = false /\
  (forall i, i <> n - 1 ->
     Z.testbit (reg (after (disableAlarm n) s) DS3232_CONTROL) i =
     Z.testbit (reg s DS3232_CONTROL) i) /\
  (forall a, 0 <= a < 256 -> a <> DS3232_CONTROL ->
     reg (after (disableAlarm n) s) a = reg s a) /\
  result (setAlarm1 dt alarm_mode) (after (disableAlarm n) s) =
    Z.testbit (reg s DS3232_CONTROL) 2 && negb (n =? 3) /\
  result (setAlarm2 dt alarm_mode) (after (disableAlarm n) s) =
    Z.testbit (reg s DS3232_CONTROL) 2 && negb (n =? 3).
Proof.
  intros Hn. destruct (disableAlarm_control n s Hn) as [B F].
  destruct (setAlarm_result dt alarm_mode (after (disableAlarm n) s))
    as [R1 R2].
  assert (E : (2 =? n - 1) = (n =? 3)).
  { destruct (Z.eqb_spec 2 (n - 1)), (Z.eqb_spec n 3); lia || reflexivity. }
  refine (conj _ (conj _ (conj _ (conj _ _)))).
  - rewrite B, Z.eqb_refl. apply andb_false_r.
  - intros i Hi. rewrite B.
    destruct (Z.eqb_spec i (n - 1)); [contradiction|apply andb_true_r].
  - exact F.
  - rewrite R1, B, E. reflexivity.
  - rewrite R2, B, E. reflexivity.
Qed.

(** X3: on a device whose control bit 2 is set, [setAlarm1] followed by
    [setAlarm2] succeeds as well; afterwards both interrupt enables (bits 0
    and 1) are set, the other control bits are as before, and the
    registers of alarm 1 still hold what [setAlarm1] wrote beside those of
    alarm 2. *)
Theorem setAlarm1_then_setAlarm2
    (s : Device) (dt1 dt2 : DateTime) (mode1 mode2 : Z) :
  Z.testbit (reg s DS3232_CONTROL) 2 = true ->
  result (setAlarm2 dt2 mode2) (after (setAlarm1 dt1 mode1) s) = true /\
  (forall i,
     Z.testbit (reg (after (setAlarm2 dt2 mode2)
                           (after (setAlarm1 dt1 mode1) s))
                    DS3232_CONTROL) i =
     Z.testbit (reg s DS3232_CONTROL) i || (i =? 0) || (i =? 1)) /\
  (forall i, (i < 4)%nat ->
     reg (after (setAlarm2 dt2 mode2) (after (setAlarm1 dt1 mode1) s))
         (DS3232_ALARM1 + Z.of_nat i) =
     nth i (alarm1_registers dt1 mode1) 0) /\
  (forall i, (i < 3)%nat ->
     reg (after (setAlarm2 dt2 mode2) (after (setAlarm1 dt1 mode1) s))
         (DS3232_ALARM2 + Z.of_nat i) =
     nth i (alarm2_registers dt2 mode2) 0).
Proof.
  intros G.
  destruct (setAlarm1_on dt1 mode1 s G) as (_ & A1 & C1 & _).
  assert (G1 : Z.testbit (reg (after (setAlarm1 dt1 mode1) s)
                              DS3232_CONTROL) 2 = true).
  { rewrite C1, G. reflexivity. }
  destruct (setAlarm2_on dt2 mode2 _ G1) as (_ & A2 & C2 & F2).
  destruct (setAlarm_result dt2 mode2 (after (setAlarm1 dt1 mode1) s))
    as [_ R2].
  refine (conj _ (conj _ (conj _ _))).
  - rewrite R2. exact G1.
  - intros i. rewrite C2, C1. reflexivity.
  - intros i Hi. rewrite F2.
    + apply A1. exact Hi.
    + unfold DS3232_ALARM1. lia.
    + unfold DS3232_ALARM1, DS3232_ALARM2, alarm2_registers.
      cbn [length]. lia.
    + unfold DS3232_ALARM1, DS3232_CONTROL. lia.
  - intros i Hi. apply A2. exact Hi.
Qed.

(** X4: after a successful [setAlarm1], [disableAlarm(1)] clears the
    interrupt enable again and nothing else: the control register is the
    one from before [setAlarm1] with bit 0 clear, and the alarm registers
    keep the bytes written.  The same holds of [setAlarm2] and
    [disableAlarm(2)] with bit 1. *)
Theorem setAlarm_then_disableAlarm
    (s : Device) (dt : DateTime) (alarm_mode : Z) :
  Z.testbit (reg s DS3232_CONTROL) 2 = true ->
  (forall i,
     Z.testbit (reg (after (disableAlarm 1) (after (setAlarm1 dt alarm_mode) s))
                    DS3232_CONTROL) i =
     Z.testbit (reg s DS3232_CONTROL) i && negb (i =? 0)) /\
  (forall i, (i < 4)%nat ->
     reg (after (disableAlarm 1) (after (setAlarm1 dt alarm_mode) s))
         (DS3232_ALARM1 + Z.of_nat i) =
     nth i (alarm1_registers dt alarm_mode) 0) /\
  (forall i,
     Z.testbit (reg (after (disableAlarm 2) (after (setAlarm2 dt alarm_mode) s))
                    DS3232_CONTROL) i =
     Z.testbit (reg s DS3232_CONTROL) i && negb (i =? 1)) /\
  (forall i, (i < 3)%nat ->
     reg (after (disableAlarm 2) (after (setAlarm2 dt alarm_mode) s))
         (DS3232_ALARM2 + Z.of_nat i) =
     nth i (alarm2_registers dt alarm_mode) 0).
Proof.
  intros G.
  destruct (setAlarm1_on dt alarm_mode s G) as (_ & A1 & C1 & _).
  destruct (setAlarm2_on dt alarm_mode s G) as (_ & A2 & C2 & _).
  destruct (disableAlarm_control 1 (after (setAlarm1 dt alarm_mode) s))
    as [B1 F1]; [lia|].
  destruct (disableAlarm_control 2 (after (setAlarm2 dt alarm_mode) s))
    as [B2 F2]; [lia|].
  refine (conj _ (conj _ (conj _ _))).
  - intros i. rewrite B1, C1. change (1 - 1) with 0.
    destruct (Z.testbit (reg s DS3232_CONTROL) i), (i =? 0); reflexivity.
  - intros i Hi. rewrite F1.
    + apply A1. exact Hi.
    + unfold DS3232_ALARM1. lia.
    + unfold DS3232_ALARM1, DS3232_CONTROL. lia.
  - intros i. rewrite B2, C2. change (2 - 1) with 1.
    destruct (Z.testbit (reg s DS3232_CONTROL) i), (i =? 1); reflexivity.
  - intros i Hi. rewrite F2.
    + apply A2. exact Hi.
    + unfold DS3232_ALARM2. lia.
    + unfold DS3232_ALARM2, DS3232_CONTROL. lia.
Qed.

(** ** The 32 kHz outputs *)

(** A flag kept in bit [k] of the status register: what setting, clearing
    and reading it do. *)
Lemma status_flag (k : Z) (s : Device) :
  0 <= k < 8 ->
  (forall i,
     Z.testbit
       (reg (after (x <- read_register DS3232_STATUSREG ;;
                    write_register DS3232_STATUSREG
                      (u8 (Z.lor x (Z.shiftl 1 k)))) s)
            DS3232_STATUSREG) i =
     Z.testbit (reg s DS3232_STATUSREG) i || (i =? k)) /\
  (forall i,
     Z.testbit
       (reg (after (x <- read_register DS3232_STATUSREG ;;
                    write_register DS3232_STATUSREG
                      (u8 (Z.land x (Z.lnot (Z.shiftl 1 k))))) s)
            DS3232_STATUSREG) i =
     Z.testbit (reg s DS3232_STATUSREG) i && negb (i =? k)) /\
  (forall a, 0 <= a < 256 -> a <> DS3232_STATUSREG ->
     reg (after (x <- read_register DS3232_STATUSREG ;;
                 write_register DS3232_STATUSREG
                   (u8 (Z.lor x (Z.shiftl 1 k)))) s) a = reg s a /\
     reg (after (x <- read_register DS3232_STATUSREG ;;
                 write_register DS3232_STATUSREG
                   (u8 (Z.land x (Z.lnot (Z.shiftl 1 k))))) s) a = reg s a) /\
  (forall s',
     result (x <- read_register DS3232_STATUSREG ;;
             ret (to_bool (Z.land (Z.shiftr x k) 1))) s' =
     Z.testbit (reg s' DS3232_STATUSREG) k).
Proof.
  intros Hk.
  destruct (set_bit_rmw DS3232_STATUSREG k s Hk) as [Bs Fs].
  destruct (clear_bit_rmw DS3232_STATUSREG k s) as [Bc Fc]; [lia|].
  refine (conj Bs (conj Bc (conj _ _))).
  - intros a Ha Hne. split.
    + apply Fs. rewrite (u8_small a) by lia. exact Hne.
    + apply Fc. rewrite (u8_small a) by lia. exact Hne.
  - intros s'. unfold result. rewrite read_bit_eq by lia. reflexivity.
Qed.

(** X5: [enable32K()] sets bit 3 of the status register, [disable32K()]
    clears it and [isEnabled32K()] returns it, so the read after either
    write reports the write; neither write changes another bit of the
    status register (the oscillator-stop flag, the alarm flags and the
    battery-backed 32 kHz enable among them) or another register. *)
Theorem output32K_is_status_bit3 (s : Device) :
  result isEnabled32K s = Z.testbit (reg s DS3232_STATUSREG) 3 /\
  result isEnabled32K (after enable32K s) = true /\
  result isEnabled32K (after disable32K s) = false /\
  (forall i, i <> 3 ->
     Z.testbit (reg (after enable32K s) DS3232_STATUSREG) i =
       Z.testbit (reg s DS3232_STATUSREG) i /\
     Z.testbit (reg (after disable32K s) DS3232_STATUSREG) i =
       Z.testbit (reg s DS3232_STATUSREG) i) /\
  (forall a, 0 <= a < 256 -> a <> DS3232_STATUSREG ->
     reg (after enable32K s) a = reg s a /\
     reg (after disable32K s) a = reg s a).
Proof.
  destruct (status_flag 3 s ltac:(lia)) as (Bs & Bc & F & R).
  change (forall i,
            Z.testbit (reg (after enable32K s) DS3232_STATUSREG) i =
            Z.testbit (reg s DS3232_STATUSREG) i || (i =? 3)) in Bs.
  change (forall i,
            Z.testbit (reg (after disable32K s) DS3232_STATUSREG) i =
            Z.testbit (reg s DS3232_STATUSREG) i && negb (i =? 3)) in Bc.
  change (forall s', result isEnabled32K s' =
                     Z.testbit (reg s' DS3232_STATUSREG) 3) in R.
  refine (conj _ (conj _ (conj _ (conj _ _)))).
  - apply R.
  - rewrite R, Bs. apply orb_true_r.
  - rewrite R, Bc. apply andb_false_r.
  - intros i Hi. rewrite Bs, Bc.
    destruct (Z.eqb_spec i 3); [contradiction|].
    split; [apply orb_false_r|apply andb_true_r].
  - exact F.
Qed.

(** X6: [enableBB32KHZ()] sets bit 6 of the status register,
    [disableBB32KHZ()] clears it and [isEnabledBB32KHZ()] returns it;
    neither write changes another bit of the status register or another
    register, so [isEnabled32K()] and [lostPower()] answer as before. *)
Theorem outputBB32KHZ_is_status_bit6 (s : Device) :
  result isEnabledBB32KHZ s = Z.testbit (reg s DS3232_STATUSREG) 6 /\
  result isEnabledBB32KHZ (after enableBB32KHZ s) = true /\
  result isEnabledBB32KHZ (after disableBB32KHZ s) = false /\
  (forall i, i <> 6 ->
     Z.testbit (reg (after enableBB32KHZ s) DS3232_STATUSREG) i =
       Z.testbit (reg s DS3232_STATUSREG) i /\
     Z.testbit (reg (after disableBB32KHZ s) DS3232_STATUSREG) i =
       Z.testbit (reg s DS3232_STATUSREG) i) /\
  (forall a, 0 <= a < 256 -> a <> DS3232_STATUSREG ->
     reg (after enableBB32KHZ s) a = reg s a /\
     reg (after disableBB32KHZ s) a = reg s a) /\
  result isEnabled32K (after enableBB32KHZ s) = result isEnabled32K s /\
  result isEnabled32K (after disableBB32KHZ s) = result isEnabled32K s /\
  result lostPower (after enableBB32KHZ s) = result lostPower s /\
  result lostPower (after disableBB32KHZ s) = result lostPower s.
Proof.
  destruct (status_flag 6 s ltac:(lia)) as (Bs & Bc & F & R).
  destruct (status_flag 3 s ltac:(lia)) as (_ & _ & _ & R3).
  change (forall i,
            Z.testbit (reg (after enableBB32KHZ s) DS3232_STATUSREG) i =
            Z.testbit (reg s DS3232_STATUSREG) i || (i =? 6)) in Bs.
  change (forall i,
            Z.testbit (reg (after disableBB32KHZ s) DS3232_STATUSREG) i =
            Z.testbit (reg s DS3232_STATUSREG) i && negb (i =? 6)) in Bc.
  change (forall s', result isEnabledBB32KHZ s' =
                     Z.testbit (reg s' DS3232_STATUSREG) 6) in R.
  change (forall s', result isEnabled32K s' =
                     Z.testbit (reg s' DS3232_STATUSREG) 3) in R3.
  refine (conj _ (conj _ (conj _ (conj _ (conj _
           (conj _ (conj _ (conj _ _)))))))).
  - apply R.
  - rewrite R, Bs. apply orb_true_r.
  - rewrite R, Bc. apply andb_false_r.
  - intros i Hi. rewrite Bs, Bc.
    destruct (Z.eqb_spec i 6); [contradiction|].
    split; [apply orb_false_r|apply andb_true_r].
  - exact F.
  - rewrite !R3, Bs. apply orb_false_r.
  - rewrite !R3, Bc. apply andb_true_r.
  - rewrite !lostPower_eq, Bs. apply orb_false_r.
  - rewrite !lostPower_eq, Bc. apply andb_true_r.
Qed.

(** ** NVRAM round trips *)

Lemma fetch_length (r : Z -> Z) (len : nat) :
  forall a, length (fetch r a len) = len.
Proof.
  induction len as [|n IH]; intros a; cbn [fetch length].
  - reflexivity.
  - rewrite IH. reflexivity.
Qed.

(** Reading back what one write transaction of at most 256 bytes stored. *)
Lemma fetch_store (r : Z -> Z) (a : Z) (data : list Z) :
  (length data <= 256)%nat ->
  fetch (store r a data) a (length data) = map u8 data.
Proof.
  intros Hl. apply (nth_ext _ _ 0 (u8 0)).
  - rewrite fetch_length, length_map. reflexivity.
  - intros i Hi. rewrite fetch_length in Hi.
    rewrite fetch_nth by exact Hi.
    rewrite store_inside by lia.
    rewrite map_nth. apply u8_idem.
Qed.

Lemma nvram_base_range (a : Z) : 0 <= (DS3232_NVRAM + a) mod 256 < 256.
Proof. apply Z.mod_pos_bound. lia. Qed.

(** X7: a byte written with [writenvram(address, data)] is the byte
    [readnvram(address)] returns, at every address; the write changes no
    register but the one addressed, so every other NVRAM cell reads as
    before. *)
Theorem nvram_byte_roundtrip (s : Device) (address data : Z) :
  result (readnvram_byte address) (after (writenvram_byte address data) s) =
    u8 data /\
  (forall x, 0 <= x < 256 -> x <> (DS3232_NVRAM + address) mod 256 ->
     reg (after (writenvram_byte address data) s) x = reg s x) /\
  (forall other, 0 <= address < 256 -> 0 <= other < 256 ->
     other <> address ->
     result (readnvram_byte other) (after (writenvram_byte address data) s) =
     result (readnvram_byte other) s).
Proof.
  pose proof (nvram_base_range address) as Ha.
  assert (R : forall a s', result (readnvram_byte a) s' =
                           reg s' ((DS3232_NVRAM + a) mod 256)).
  { intros a s'. unfold result, readnvram_byte, bind.
    rewrite readnvram_eq. cbn [ret fst].
    rewrite (fetch_reg s' _ 1 0) by lia.
    rewrite Z.add_0_r. reflexivity. }
  assert (W : forall x,
            reg (after (writenvram_byte address data) s) x =
            if u8 x =? (DS3232_NVRAM + address) mod 256 then u8 data
            else reg s x).
  { intros x. unfold after, writenvram_byte.
    rewrite writenvram_eq. cbn [snd firstn store].
    rewrite reg_upd, (u8_small ((DS3232_NVRAM + address) mod 256)) by exact Ha.
    rewrite !u8_idem. reflexivity. }
  refine (conj _ (conj _ _)).
  - rewrite R, W. rewrite u8_small by exact Ha.
    rewrite Z.eqb_refl. reflexivity.
  - intros x Hx Hne. rewrite W, (u8_small x) by exact Hx.
    destruct (Z.eqb_spec x ((DS3232_NVRAM + address) mod 256));
      [contradiction|reflexivity].
  - intros other Hadr Ho Hne. rewrite !R, W.
    rewrite u8_small by apply nvram_base_range.
    destruct (Z.eqb_spec ((DS3232_NVRAM + other) mod 256)
                         ((DS3232_NVRAM + address) mod 256)) as [E|_];
      [|reflexivity].
    exfalso. unfold DS3232_NVRAM in E.
    clear - E Hadr Ho Hne. Z.div_mod_to_equations. lia.
Qed.

(** X8: a buffer written with [writenvram(address, buf, size)] is what
    [readnvram(buf, size, address)] reads back, byte for byte, when [buf]
    holds [size] bytes; and when the block lies within the 236 bytes of
    NVRAM the write leaves the clock, alarm, control, status and
    temperature registers (0x00 to 0x13) as they were. *)
Theorem nvram_buffer_roundtrip
    (s : Device) (address : Z) (buf : list Z) (size : nat) :
  (size <= length buf)%nat -> (size <= 255)%nat ->
  result (readnvram size address) (after (writenvram address buf size) s) =
    map u8 (firstn size buf) /\
  (0 <= address -> address + Z.of_nat size <= 236 ->
   forall x, 0 <= x < DS3232_NVRAM ->
     reg (after (writenvram address buf size) s) x = reg s x).
Proof.
  intros Hs Hmax.
  assert (L : length (firstn size buf) = size).
  { rewrite length_firstn. lia. }
  split.
  - unfold result, after. rewrite writenvram_eq, readnvram_eq. cbn [fst snd regs].
    rewrite <- L at 2. apply fetch_store. lia.
  - intros Ha Hend x Hx. unfold after. rewrite writenvram_eq. cbn [snd].
    unfold reg. cbn [regs]. rewrite store_outside; [reflexivity|].
    intros i Hi. rewrite L in Hi. unfold DS3232_NVRAM in *.
    rewrite (Z.mod_small (20 + address)) by lia.
    rewrite !u8_small by lia. lia.
Qed.

(** ** What the other operations leave alone *)

(** X9: [adjust] issues one 8-byte write at register 0, then reads and
    rewrites the status register; besides the seven time registers and bit
    7 of the status register nothing on the chip changes (alarms, control
    register and NVRAM keep their bytes), and the day-of-week register
    receives the BCD of [dowToDS3232(dt.dayOfTheWeek())]. *)
Theorem adjust_touches_time_and_OSF_only (s : Device) (dt : DateTime) :
  bus_log (after (adjust dt) s) =
    bus_log s ++
    [BusWrite (adjust_buffer dt);
     BusWriteThenRead [DS3232_STATUSREG] 1;
     BusWrite [DS3232_STATUSREG;
               u8 (Z.land (reg s DS3232_STATUSREG) (Z.lnot 0x80))]] /\
  length (adjust_buffer dt) = 8%nat /\
  reg (after (adjust dt) s) 3 = bin2bcd (dowToDS3232 (dayOfTheWeek dt)) /\
  (forall a, 7 <= a < 256 -> a <> DS3232_STATUSREG ->
     reg (after (adjust dt) s) a = reg s a).
Proof.
  refine (conj _ (conj _ (conj _ _))).
  - unfold after. rewrite adjust_eq. reflexivity.
  - reflexivity.
  - exact (adjust_time_registers dt s 3 ltac:(lia)).
  - intros a Ha Hne. unfold after. rewrite adjust_eq. cbn [snd].
    rewrite reg_upd, (u8_small a) by lia.
    destruct (Z.eqb_spec a DS3232_STATUSREG); [contradiction|].
    unfold reg. cbn [regs]. rewrite (u8_small a) by lia.
    rewrite store_time_keeps; [reflexivity| |lia].
    unfold adjust_buffer. cbn [tl length]. lia.
Qed.

Lemma sqw_control_bits (c m i : Z) :
  Z.land m 0x1C = m -> 0 <= i < 8 ->
  Z.testbit (u8 (Z.lor (u8 (Z.land (u8 (Z.land (u8 c) (Z.lnot 0x04)))
                                   (Z.lnot 0x18))) m)) i =
  if (2 <=? i) && (i <=? 4) then Z.testbit m i else Z.testbit (u8 c) i.
Proof.
  intros H Hi. pose proof (land_1C_range m H) as R.
  pose (f := fun b x k =>
    implb (Z.land x 0x1C =? x)
      (eqb (Z.testbit
              (u8 (Z.lor (u8 (Z.land (u8 (Z.land b (Z.lnot 0x04)))
                                     (Z.lnot 0x18))) x)) k)
           (if (2 <=? k) && (k <=? 4) then Z.testbit x k
            else Z.testbit b k))).
  assert (A : all_below 256
                (fun b => all_below 32
                   (fun x => all_below 8 (f b x))) = true)
    by (vm_compute; reflexivity).
  pose proof (byte_check _ A c) as B. cbv beta in B.
  pose proof (all_below_sound 32 _ B m ltac:(lia)) as C1. cbv beta in C1.
  pose proof (all_below_sound 8 _ C1 i ltac:(lia)) as C2.
  unfold f in C2. rewrite (proj2 (Z.eqb_eq _ _) H) in C2.
  apply eqb_prop. exact C2.
Qed.

(** X10: for a mode within bits 2-4, [writeSqwPinMode] puts the mode in
    bits 2-4 of the control register and leaves its other bits (the alarm
    interrupt enables and EOSC among them) and every other register as
    they were.  As bit 2 is also the guard of the alarms, [setAlarm1] and
    [setAlarm2] called next return true exactly when bit 2 of the mode is
    set. *)
Theorem writeSqwPinMode_sets_bits_2_to_4
    (s : Device) (mode : Z) (dt : DateTime) (alarm_mode : Z) :
  Z.land mode 0x1C = mode ->
  (forall i, 2 <= i <= 4 ->
     Z.testbit (reg (after (writeSqwPinMode mode) s) DS3232_CONTROL) i =
     Z.testbit mode i) /\
  (forall i, ~ 2 <= i <= 4 ->
     Z.testbit (reg (after (writeSqwPinMode mode) s) DS3232_CONTROL) i =
     Z.testbit (reg s DS3232_CONTROL) i) /\
  (forall a, 0 <= a < 256 -> a <> DS3232_CONTROL ->
     reg (after (writeSqwPinMode mode) s) a = reg s a) /\
  result (setAlarm1 dt alarm_mode) (after (writeSqwPinMode mode) s) =
    Z.testbit mode 2 /\
  result (setAlarm2 dt alarm_mode) (after (writeSqwPinMode mode) s) =
    Z.testbit mode 2.
Proof.
  intros H.
  assert (E : after (writeSqwPinMode mode) s =
              mkDevice
                (upd (regs s) (u8 DS3232_CONTROL)
                   (u8 (Z.lor (u8 (Z.land (u8 (Z.land (reg s DS3232_CONTROL)
                                                      (Z.lnot 0x04)))
                                           (Z.lnot 0x18))) mode)))
                (bus_log s ++
                 [BusWriteThenRead [u8 DS3232_CONTROL] 1;
                  BusWrite
                    [u8 DS3232_CONTROL;
                     u8 (Z.lor (u8 (Z.land (u8 (Z.land (reg s DS3232_CONTROL)
                                                       (Z.lnot 0x04)))
                                            (Z.lnot 0x18))) mode)]])).
  { unfold after, writeSqwPinMode.
    rewrite (read_modify_write_eq DS3232_CONTROL
               (fun c => Z.lor (u8 (Z.land (u8 (Z.land c (Z.lnot 0x04)))
                                           (Z.lnot 0x18))) mode)).
    reflexivity. }
  assert (B : forall i,
            Z.testbit (reg (after (writeSqwPinMode mode) s) DS3232_CONTROL) i =
            if (2 <=? i) && (i <=? 4) then Z.testbit mode i
            else Z.testbit (reg s DS3232_CONTROL) i).
  { intros i. rewrite E, reg_after_write_same.
    destruct (Z.ltb_spec i 0) as [Hneg|Hpos].
    { rewrite !Z.testbit_neg_r by lia.
      destruct ((2 <=? i) && (i <=? 4)); reflexivity. }
    destruct (Z.ltb_spec i 8) as [Hlo|Hhi].
    - unfold reg. apply sqw_control_bits; [exact H|lia].
    - rewrite u8_testbit. unfold reg. rewrite u8_testbit.
      destruct (Z.ltb_spec i 8); [lia|].
      destruct (Z.leb_spec i 4); [lia|]. rewrite andb_false_r.
      reflexivity. }
  destruct (setAlarm_result dt alarm_mode (after (writeSqwPinMode mode) s))
    as [R1 R2].
  refine (conj _ (conj _ (conj _ (conj _ _)))).
  - intros i Hi. rewrite B.
    destruct (Z.leb_spec 2 i), (Z.leb_spec i 4); try lia. reflexivity.
  - intros i Hi. rewrite B.
    destruct (Z.leb_spec 2 i), (Z.leb_spec i 4); try lia; reflexivity.
  - intros a Ha Hne. rewrite E, reg_upd, (u8_small a) by lia.
    destruct (Z.eqb_spec a (u8 DS3232_CONTROL)) as [C|_]; [|reflexivity].
    exfalso. apply Hne. exact C.
  - rewrite R1, B. reflexivity.
  - rewrite R2, B. reflexivity.
Qed.

(** X11: the queries of the driver never write: [lostPower], [now],
    [readSqwPinMode], [getTemperature], [alarmFired], [isEnabled32K],
    [isEnabledBB32KHZ], [isEnabledEOSC] and both forms of [readnvram] leave
    the register file as it was and add no write transaction to the bus. *)
Theorem queries_write_nothing (s : Device) (n address : Z) (size : nat) :
  Forall (fun s' => regs s' = regs s /\
                    writes (bus_log s') = writes (bus_log s))
    [after lostPower s; after now s; after readSqwPinMode s;
     after getTemperature s; after (alarmFired n) s; after isEnabled32K s;
     after isEnabledBB32KHZ s; after isEnabledEOSC s;
     after (readnvram size address) s; after (readnvram_byte address) s].
Proof.
  assert (Q : forall A (f : Z -> A) r,
            regs (after (x <- read_register r ;; ret (f x)) s) = regs s /\
            writes (bus_log (after (x <- read_register r ;; ret (f x)) s)) =
            writes (bus_log s)).
  { intros A f r. unfold after, bind. rewrite read_register_eq.
    cbn [ret snd regs bus_log]. rewrite writes_app_read. split; reflexivity. }
  assert (N : regs (after (readnvram size address) s) = regs s /\
              writes (bus_log (after (readnvram size address) s)) =
              writes (bus_log s)).
  { unfold after. rewrite readnvram_eq. cbn [snd regs bus_log].
    rewrite writes_app_read. split; reflexivity. }
  repeat apply Forall_cons; try apply Forall_nil.
  - exact (Q _ _ _).
  - unfold after. rewrite now_eq. cbn [snd regs bus_log].
    rewrite writes_app_read. split; reflexivity.
  - exact (Q _ _ _).
  - unfold after, getTemperature, bind, i2c_write_then_read.
    cbn [ret snd regs bus_log store]. rewrite writes_app_read.
    split; reflexivity.
  - exact (Q _ _ _).
  - exact (Q _ _ _).
  - exact (Q _ _ _).
  - exact (Q _ _ _).
  - exact N.
  - unfold after, readnvram_byte, bind. rewrite readnvram_eq.
    cbn [ret snd regs bus_log]. rewrite writes_app_read. split; reflexivity.
Qed.

(** X12: whatever the temperature registers hold, [getTemperature()]
    returns a multiple of a quarter of a degree between 0 and 255.75; it
    never returns a value below zero. *)
Theorem getTemperature_range (s : Device) :
  exists k : Z,
    0 <= k <= 1023 /\ result getTemperature s == k # 4.
Proof.
  exists (4 * reg s DS3232_TEMPERATUREREG +
          Z.shiftr (reg s (DS3232_TEMPERATUREREG + 1)) 6).
  pose proof (u8_range (regs s (u8 DS3232_TEMPERATUREREG))) as H0.
  pose proof (u8_range (regs s (u8 (DS3232_TEMPERATUREREG + 1)))) as H1.
  fold (reg s DS3232_TEMPERATUREREG) in H0.
  fold (reg s (DS3232_TEMPERATUREREG + 1)) in H1.
  assert (Hf : 0 <= Z.shiftr (reg s (DS3232_TEMPERATUREREG + 1)) 6 <= 3).
  { rewrite Z.shiftr_div_pow2 by lia. change (2 ^ 6) with 64.
    clear - H1. Z.div_mod_to_equations. lia. }
  split.
  - lia.
  - rewrite getTemperature_eq. unfold temperature_decode. cbn [nth].
    unfold Qeq, Qplus, Qmult, inject_Z. cbn [Qnum Qden].
    lia.
Qed.

(** ** The alarm registers read back *)

Lemma field_mask_decode (n : Z) (b : bool) :
  0 <= n <= 79 ->
  bcd2bin (Z.land (Z.lor (bin2bcd n) (mask_bit b)) 0x7F) = n /\
  Z.testbit (Z.lor (bin2bcd n) (mask_bit b)) 7 = b.
Proof.
  intros H.
  pose (f := fun b k =>
    (bcd2bin (Z.land (Z.lor (bin2bcd k) (mask_bit b)) 0x7F) =? k) &&
    eqb (Z.testbit (Z.lor (bin2bcd k) (mask_bit b)) 7) b).
  assert (A : all_below 80 (f true) && all_below 80 (f false) = true)
    by (vm_compute; reflexivity).
  apply andb_prop in A. destruct A as [At Af].
  assert (F : f b n = true).
  { destruct b; [apply (all_below_sound 80 _ At)
                |apply (all_below_sound 80 _ Af)]; lia. }
  unfold f in F. apply andb_prop in F. destruct F as [F1 F2].
  split; [apply Z.eqb_eq; exact F1|apply eqb_prop; exact F2].
Qed.

Lemma day_mask_decode (n : Z) (b c : bool) :
  0 <= n <= 39 ->
  bcd2bin (Z.land (Z.lor (Z.lor (bin2bcd n) (mask_bit b)) (dydt_bit c)) 0x3F)
    = n /\
  Z.testbit (Z.lor (Z.lor (bin2bcd n) (mask_bit b)) (dydt_bit c)) 7 = b /\
  Z.testbit (Z.lor (Z.lor (bin2bcd n) (mask_bit b)) (dydt_bit c)) 6 = c.
Proof.
  intros H.
  pose (f := fun b c k =>
    (bcd2bin (Z.land (Z.lor (Z.lor (bin2bcd k) (mask_bit b)) (dydt_bit c))
                     0x3F) =? k) &&
    eqb (Z.testbit (Z.lor (Z.lor (bin2bcd k) (mask_bit b)) (dydt_bit c)) 7) b
    && eqb (Z.testbit (Z.lor (Z.lor (bin2bcd k) (mask_bit b)) (dydt_bit c)) 6)
           c).
  assert (A : forall b' c', all_below 40 (f b' c') = true).
  { intros [|] [|]; vm_compute; reflexivity. }
  pose proof (all_below_sound 40 _ (A b c) n ltac:(lia)) as F.
  unfold f in F. apply andb_prop in F. destruct F as [F F3].
  apply andb_prop in F. destruct F as [F1 F2].
  refine (conj _ (conj _ _)).
  - apply Z.eqb_eq. exact F1.
  - apply eqb_prop. exact F2.
  - apply eqb_prop. exact F3.
Qed.

(** X13: after a successful [setAlarm1] with a time in range, each alarm-1
    register decodes back to its field once the flag bits are masked off,
    and carries the mode in its flag bits: bit 7 of the seconds, minutes,
    hours and day registers is bit 0, 1, 2 and 3 of the mode, bit 6 of the
    day register is bit 4 of the mode, and the day register holds the day
    of the week when that bit is set, the day of the month otherwise. *)
Theorem setAlarm1_registers_decode
    (s : Device) (dt : DateTime) (alarm_mode : Z) :
  Z.testbit (reg s DS3232_CONTROL) 2 = true ->
  valid_DateTime dt ->
  0 <= dowToDS3232 (dayOfTheWeek dt) <= 7 ->
  (bcd2bin (Z.land (reg (after (setAlarm1 dt alarm_mode) s) 0x07) 0x7F)
     = second dt /\
   Z.testbit (reg (after (setAlarm1 dt alarm_mode) s) 0x07) 7
     = Z.testbit alarm_mode 0) /\
  (bcd2bin (Z.land (reg (after (setAlarm1 dt alarm_mode) s) 0x08) 0x7F)
     = minute dt /\
   Z.testbit (reg (after (setAlarm1 dt alarm_mode) s) 0x08) 7
     = Z.testbit alarm_mode 1) /\
  (bcd2bin (Z.land (reg (after (setAlarm1 dt alarm_mode) s) 0x09) 0x7F)
     = hour dt /\
   Z.testbit (reg (after (setAlarm1 dt alarm_mode) s) 0x09) 7
     = Z.testbit alarm_mode 2) /\
  (bcd2bin (Z.land (reg (after (setAlarm1 dt alarm_mode) s) 0x0A) 0x3F)
     = (if Z.testbit alarm_mode 4 then dowToDS3232 (dayOfTheWeek dt)
        else day dt) /\
   Z.testbit (reg (after (setAlarm1 dt alarm_mode) s) 0x0A) 7
     = Z.testbit alarm_mode 3 /\
   Z.testbit (reg (after (setAlarm1 dt alarm_mode) s) 0x0A) 6
     = Z.testbit alarm_mode 4).
Proof.
  intros G (Hy & Hmo & Hd & Hh & Hmi & Hs) Hdow.
  destruct (setAlarm1_on dt alarm_mode s G) as (_ & A & _ & _).
  pose proof (A 0%nat ltac:(unfold alarm1_registers; cbn [length]; lia)) as R0.
  pose proof (A 1%nat ltac:(unfold alarm1_registers; cbn [length]; lia)) as R1.
  pose proof (A 2%nat ltac:(unfold alarm1_registers; cbn [length]; lia)) as R2.
  pose proof (A 3%nat ltac:(unfold alarm1_registers; cbn [length]; lia)) as R3.
  change (DS3232_ALARM1 + Z.of_nat 0) with 0x07 in R0.
  change (DS3232_ALARM1 + Z.of_nat 1) with 0x08 in R1.
  change (DS3232_ALARM1 + Z.of_nat 2) with 0x09 in R2.
  change (DS3232_ALARM1 + Z.of_nat 3) with 0x0A in R3.
  unfold alarm1_registers in R0, R1, R2, R3. cbn [nth] in R0, R1, R2, R3.
  rewrite R0, R1, R2, R3.
  refine (conj _ (conj _ (conj _ _))).
  - apply field_mask_decode. lia.
  - apply field_mask_decode. lia.
  - apply field_mask_decode. lia.
  - apply day_mask_decode. unfold alarm_day.
    destruct (Z.testbit alarm_mode 4); lia.
Qed.

(** X14: after a successful [setAlarm2] with a time in range, the three
    alarm-2 registers decode back to the minute, the hour and the day, and
    carry the mode: bit 7 of the minutes, hours and day registers is bit 0,
    1 and 2 of the mode, bit 6 of the day register is bit 3 of the mode and
    selects the day of the week over the day of the month. *)
Theorem setAlarm2_registers_decode
    (s : Device) (dt : DateTime) (alarm_mode : Z) :
  Z.testbit (reg s DS3232_CONTROL) 2 = true ->
  valid_DateTime dt ->
  0 <= dowToDS3232 (dayOfTheWeek dt) <= 7 ->
  (bcd2bin (Z.land (reg (after (setAlarm2 dt alarm_mode) s) 0x0B) 0x7F)
     = minute dt /\
   Z.testbit (reg (after (setAlarm2 dt alarm_mode) s) 0x0B) 7
     = Z.testbit alarm_mode 0) /\
  (bcd2bin (Z.land (reg (after (setAlarm2 dt alarm_mode) s) 0x0C) 0x7F)
     = hour dt /\
   Z.testbit (reg (after (setAlarm2 dt alarm_mode) s) 0x0C) 7
     = Z.testbit alarm_mode 1) /\
  (bcd2bin (Z.land (reg (after (setAlarm2 dt alarm_mode) s) 0x0D) 0x3F)
     = (if Z.testbit alarm_mode 3 then dowToDS3232 (dayOfTheWeek dt)
        else day dt) /\
   Z.testbit (reg (after (setAlarm2 dt alarm_mode) s) 0x0D) 7
     = Z.testbit alarm_mode 2 /\
   Z.testbit (reg (after (setAlarm2 dt alarm_mode) s) 0x0D) 6
     = Z.testbit alarm_mode 3).
Proof.
  intros G (Hy & Hmo & Hd & Hh & Hmi & Hs) Hdow.
  destruct (setAlarm2_on dt alarm_mode s G) as (_ & A & _ & _).
  pose proof (A 0%nat ltac:(unfold alarm2_registers; cbn [length]; lia)) as R0.
  pose proof (A 1%nat ltac:(unfold alarm2_registers; cbn [length]; lia)) as R1.
  pose proof (A 2%nat ltac:(unfold alarm2_registers; cbn [length]; lia)) as R2.
  change (DS3232_ALARM2 + Z.of_nat 0) with 0x0B in R0.
  change (DS3232_ALARM2 + Z.of_nat 1) with 0x0C in R1.
  change (DS3232_ALARM2 + Z.of_nat 2) with 0x0D in R2.
  unfold alarm2_registers in R0, R1, R2. cbn [nth] in R0, R1, R2.
  rewrite R0, R1, R2.
  refine (conj _ (conj _ _)).
  - apply field_mask_decode. lia.
  - apply field_mask_decode. lia.
  - apply day_mask_decode. unfold alarm_day.
    destruct (Z.testbit alarm_mode 3); lia.
Qed.

(** X15: the buffer form of [readnvram] agrees with the one-byte form:
    byte i of a block read at [address] is the byte [readnvram(address + i)]
    returns, the address wrapping at 256 in both. *)
Theorem readnvram_block_is_bytes
    (s : Device) (address : Z) (size i : nat) :
  (i < size)%nat ->
  nth i (result (readnvram size address) s) 0 =
  result (readnvram_byte (address + Z.of_nat i)) s.
Proof.
  intros Hi. unfold result, readnvram_byte, bind.
  rewrite !readnvram_eq. cbn [ret fst].
  rewrite fetch_reg by exact Hi.
  rewrite (fetch_reg s _ 1 0) by lia.
  change (Z.of_nat 0) with 0. rewrite Z.add_0_r.
  unfold reg. f_equal. f_equal. unfold u8.
  rewrite Z.add_mod_idemp_l by lia.
  rewrite Z.mod_mod by lia.
  f_equal. lia.
Qed.

End Driver.

(** ** The theorems at concrete inputs *)

(** C1 fails as the spec words it: on a register image whose month byte is
    0x81 (January, century bit set) [now()] returns month 1, where decoding
    the month byte without a mask gives 81. *)
Lemma now_decode_spec_counterexample :
  result now sample_device <>
  now_decode_spec (fetch (regs sample_device) DS3232_TIME 7).
Proof. vm_compute. discriminate. Qed.

Lemma bcd2bin_bin2bcd_witness :
  0 <= 59 <= 99 /\
  (bin2bcd 59 = Z.lor (Z.shiftl (59 / 10) 4) (59 mod 10) /\
   bcd2bin (bin2bcd 59) = 59).
Proof.
  split.
  - lia.
  - apply (bcd2bin_bin2bcd 59). lia.
Defined.

Lemma adjust_now_roundtrip_witness :
  valid_DateTime sample_time /\
  result now (after (adjust (fun _ => 3) (fun d => d) sample_time)
                    sample_device) = sample_time.
Proof.
  assert (V : valid_DateTime sample_time).
  { unfold valid_DateTime, sample_time. simpl. lia. }
  split.
  - exact V.
  - exact (proj1 (proj2 (adjust_now_roundtrip (fun _ => 3) (fun d => d)
                           sample_device sample_time V))).
Defined.

Lemma sqw_write_then_read_witness :
  Z.land 0x08 0x1C = 0x08 /\
  result (readSqwPinMode 0x1C) (after (writeSqwPinMode 0x08) sample_device) =
    0x08.
Proof.
  split.
  - reflexivity.
  - exact (proj1 (sqw_write_then_read 0x1C sample_device 0x08 eq_refl)).
Defined.

Lemma nvram_address_wraps_witness :
  236 <= 236 <= 255 /\
  result (readnvram_byte 236) sample_device = 0x30.
Proof.
  split.
  - lia.
  - assert (H : 236 <= 236 <= 255) by lia.
    exact (proj1 (proj2 (proj2 (proj2 (proj2 (proj2
             (nvram_address_wraps sample_device 236 0 H))))))).
Defined.

Lemma clearAlarm_clears_only_its_flag_witness :
  (1 <= 1 <= 8 /\ 1 <= 2 <= 8) /\
  result (alarmFired 1) (after (clearAlarm 1) sample_device) = false.
Proof.
  assert (H1 : 1 <= 1 <= 8) by lia.
  assert (H2 : 1 <= 2 <= 8) by lia.
  split.
  - split; assumption.
  - exact (proj1 (proj2
             (clearAlarm_clears_only_its_flag sample_device 1 2 H1 H2))).
Defined.

Lemma disableAlarm_clears_only_its_bit_witness :
  1 <= 3 <= 8 /\
  result (setAlarm1 (fun _ => 3) (fun d => d) sample_time 0)
         (after (disableAlarm 3) sample_device) =
    Z.testbit (reg sample_device DS3232_CONTROL) 2 && negb (3 =? 3).
Proof.
  assert (H : 1 <= 3 <= 8) by lia.
  split.
  - exact H.
  - exact (proj1 (proj2 (proj2 (proj2
             (disableAlarm_clears_only_its_bit (fun _ => 3) (fun d => d)
                sample_device 3 sample_time 0 H))))).
Defined.

Lemma setAlarm1_then_setAlarm2_witness :
  Z.testbit (reg sample_device DS3232_CONTROL) 2 = true /\
  result (setAlarm2 (fun _ => 3) (fun d => d) sample_time 0x06)
         (after (setAlarm1 (fun _ => 3) (fun d => d) sample_time 0x0E)
                sample_device) = true.
Proof.
  assert (G : Z.testbit (reg sample_device DS3232_CONTROL) 2 = true)
    by reflexivity.
  split.
  - exact G.
  - exact (proj1 (setAlarm1_then_setAlarm2 (fun _ => 3) (fun d => d)
                    sample_device sample_time sample_time 0x0E 0x06 G)).
Defined.

Lemma setAlarm_then_disableAlarm_witness :
  Z.testbit (reg sample_device DS3232_CONTROL) 2 = true /\
  (forall i,
     Z.testbit
       (reg (after (disableAlarm 1)
                   (after (setAlarm1 (fun _ => 3) (fun d => d) sample_time 0x0E)
                          sample_device))
            DS3232_CONTROL) i =
     Z.testbit (reg sample_device DS3232_CONTROL) i && negb (i =? 0)).
Proof.
  assert (G : Z.testbit (reg sample_device DS3232_CONTROL) 2 = true)
    by reflexivity.
  split.
  - exact G.
  - exact (proj1 (setAlarm_then_disableAlarm (fun _ => 3) (fun d => d)
                    sample_device sample_time 0x0E G)).
Defined.

Lemma nvram_buffer_roundtrip_witness :
  ((3 <= length [0x11; 0x22; 0x33])%nat /\ (3 <= 255)%nat) /\
  result (readnvram 3 10)
         (after (writenvram 10 [0x11; 0x22; 0x33] 3) sample_device) =
    map u8 (firstn 3 [0x11; 0x22; 0x33]).
Proof.
  assert (H1 : (3 <= length [0x11; 0x22; 0x33])%nat) by (simpl; lia).
  assert (H2 : (3 <= 255)%nat) by lia.
  split.
  - split; assumption.
  - exact (proj1 (nvram_buffer_roundtrip sample_device 10
                    [0x11; 0x22; 0x33] 3 H1 H2)).
Defined.

Lemma writeSqwPinMode_sets_bits_2_to_4_witness :
  Z.land 0x08 0x1C = 0x08 /\
  result (setAlarm1 (fun _ => 3) (fun d => d) sample_time 0)
         (after (writeSqwPinMode 0x08) sample_device) = Z.testbit 0x08 2.
Proof.
  split.
  - reflexivity.
  - exact (proj1 (proj2 (proj2 (proj2
             (writeSqwPinMode_sets_bits_2_to_4 (fun _ => 3) (fun d => d)
                sample_device 0x08 sample_time 0 eq_refl))))).
Defined.

Lemma setAlarm1_registers_decode_witness :
  (Z.testbit (reg sample_device DS3232_CONTROL) 2 = true /\
   valid_DateTime sample_time /\ 0 <= 3 <= 7) /\
  bcd2bin (Z.land
             (reg (after (setAlarm1 (fun _ => 3) (fun d => d) sample_time 0x0E)
                         sample_device) 0x07) 0x7F) = second sample_time.
Proof.
  assert (G : Z.testbit (reg sample_device DS3232_CONTROL) 2 = true)
    by reflexivity.
  assert (V : valid_DateTime sample_time).
  { unfold valid_DateTime, sample_time. simpl. lia. }
  assert (D : 0 <= 3 <= 7) by lia.
  split.
  - split; [exact G|split; [exact V|exact D]].
  - exact (proj1 (proj1
             (setAlarm1_registers_decode (fun _ => 3) (fun d => d)
                sample_device sample_time 0x0E G V D))).
Defined.

Lemma setAlarm2_registers_decode_witness :
  (Z.testbit (reg sample_device DS3232_CONTROL) 2 = true /\
   valid_DateTime sample_time /\ 0 <= 3 <= 7) /\
  bcd2bin (Z.land
             (reg (after (setAlarm2 (fun _ => 3) (fun d => d) sample_time 0x06)
                         sample_device) 0x0B) 0x7F) = minute sample_time.
Proof.
  assert (G : Z.testbit (reg sample_device DS3232_CONTROL) 2 = true)
    by reflexivity.
  assert (V : valid_DateTime sample_time).
  { unfold valid_DateTime, sample_time. simpl. lia. }
  assert (D : 0 <= 3 <= 7) by lia.
  split.
  - split; [exact G|split; [exact V|exact D]].
  - exact (proj1 (proj1
             (setAlarm2_registers_decode (fun _ => 3) (fun d => d)
                sample_device sample_time 0x06 G V D))).
Defined.

Lemma readnvram_block_is_bytes_witness :
  (1 < 4)%nat /\
  nth 1 (result (readnvram 4 250) sample_device) 0 =
  result (readnvram_byte (250 + Z.of_nat 1)) sample_device.
Proof.
  assert (H : (1 < 4)%nat) by lia.
  split.
  - exact H.
  - exact (readnvram_block_is_bytes sample_device 250 4 1 H).
Defined.
